(** * An authenticating reverse proxy in front of a document-conversion backend

    Shallow embedding of [src/main.py]: the [authenticate_request]
    middleware, the [health] route and the five forwarding handlers
    ([proxy_convert_file], [proxy_convert_source],
    [proxy_convert_source_async], [proxy_task_status],
    [proxy_task_result]).

    Text is modelled as [string] (one character per Latin-1 code point, the
    decoding Starlette applies to header values), bodies as [list byte],
    Python floats as binary64 primitive floats, Python dicts as [gmap].
    Printing, logging and the outbound HTTP call are effects: they are
    threaded through an explicit [World]. *)

From Stdlib Require Import ZArith String Ascii List Bool Floats Lia.
From Stdlib Require Import DecimalString.
From Stdlib.Strings Require Import Byte.
From stdpp Require Import gmap strings.
Import ListNotations.

Local Open Scope string_scope.
Local Open Scope Z_scope.

(** ** Python strings *)

Module Py.

Definition code (c : ascii) : Z := Z.of_N (N_of_ascii c).
Definition chr (n : Z) : ascii := ascii_of_N (Z.to_N n).

(** [str.isspace] on one Latin-1 character: TAB..CR, FS..US, SPACE,
    NEL (0x85) and NBSP (0xA0). *)
Definition isspace (c : ascii) : bool :=
  let n := code c in
  ((9 <=? n) && (n <=? 13)) || ((28 <=? n) && (n <=? 32))
  || (n =? 133) || (n =? 160).

(** [str.lower] on one Latin-1 character: A..Z and the accented capitals
    0xC0..0xDE (the multiplication sign 0xD7 apart) move up by 32. *)
Definition lower_char (c : ascii) : ascii :=
  let n := code c in
  if ((65 <=? n) && (n <=? 90))
     || ((192 <=? n) && (n <=? 222) && negb (n =? 215))
  then chr (n + 32) else c.

Fixpoint lower (s : string) : string :=
  match s with
  | EmptyString => EmptyString
  | String c r => String (lower_char c) (lower r)
  end.

(** Skip the leading whitespace run. *)
Fixpoint lstrip (s : string) : string :=
  match s with
  | EmptyString => EmptyString
  | String c r => if isspace c then lstrip r else s
  end.

(** The maximal whitespace-free prefix and what follows it. *)
Fixpoint take_word (s : string) : string * string :=
  match s with
  | EmptyString => (EmptyString, EmptyString)
  | String c r =>
      if isspace c then (EmptyString, s)
      else let '(w, t) := take_word r in (String c w, t)
  end.

(** [s.split(None, maxsplit)]: words separated by whitespace runs; once
    [maxsplit] words have been cut the remainder, stripped on the left
    only, is the last item (and is dropped when empty). *)
Fixpoint split (maxsplit : nat) (s : string) : list string :=
  match lstrip s with
  | EmptyString => []
  | String _ _ as s1 =>
      match maxsplit with
      | O => [s1]
      | S n => let '(w, t) := take_word s1 in w :: split n t
      end
  end.

(** Truth value of an [Optional[str]]: [None] and the empty string are false. *)
Definition truthy (o : option string) : bool :=
  match o with
  | None => false
  | Some EmptyString => false
  | Some (String _ _) => true
  end.

(** [hay.startswith(needle)] *)
Fixpoint startswith (hay needle : string) : bool :=
  match needle, hay with
  | EmptyString, _ => true
  | String _ _, EmptyString => false
  | String a n, String b h => if Ascii.eqb a b then startswith h n else false
  end.

(** [needle in hay] *)
Fixpoint contains (hay needle : string) : bool :=
  startswith hay needle
  || match hay with
     | EmptyString => false
     | String _ h => contains h needle
     end.

(** [hay.endswith(needle)] *)
Fixpoint endswith (hay needle : string) : bool :=
  String.eqb hay needle
  || match hay with
     | EmptyString => false
     | String _ h => endswith h needle
     end.

(** [prefix] removed from the front of [s], when it is there. *)
Fixpoint removeprefix (prefix s : string) : option string :=
  match prefix, s with
  | EmptyString, _ => Some s
  | String _ _, EmptyString => None
  | String a p, String b r => if Ascii.eqb a b then removeprefix p r else None
  end.

(** [all(p(c) for c in s)] *)
Fixpoint all_chars (p : ascii -> bool) (s : string) : bool :=
  match s with
  | EmptyString => true
  | String c r => p c && all_chars p r
  end.

(** [c in s] for one character. *)
Fixpoint has_char (c : ascii) (s : string) : bool :=
  match s with
  | EmptyString => false
  | String d r => Ascii.eqb c d || has_char c r
  end.

End Py.

(** ** Python floats *)

Module PyFloat.

Local Open Scope float_scope.

(** [a > b] on floats; false whenever an operand is NaN. *)
Definition gt (a b : float) : bool := PrimFloat.ltb b a.

(** The builtin [max(a, b)]: the first argument is kept unless the second
    compares strictly greater. *)
Definition max (a b : float) : float := if gt b a then b else a.

Local Open Scope Z_scope.

Definition digits_of (n : Z) : string :=
  NilZero.string_of_uint (N.to_uint (Z.to_N n)).

Fixpoint zeros (n : nat) : string :=
  match n with
  | O => EmptyString
  | S k => String "0" (zeros k)
  end.

(** Trailing zeros of a positive decimal numeral dropped. *)
Fixpoint strip_zeros (fuel : nat) (d : Z) : Z :=
  match fuel with
  | O => d
  | S f => if (0 <? d) && (d mod 10 =? 0) then strip_zeros f (d / 10) else d
  end.

(** The value is [vn / vd]. [decimal_point] is the [k] with
    [10^(k-1) <= vn / vd < 10^k]. *)
Fixpoint scale_up (fuel : nat) (vn vd : Z) (k : Z) : Z :=
  match fuel with
  | O => k
  | S f => if vn * 10 <? vd then scale_up f (vn * 10) vd (k - 1) else k
  end.

Definition decimal_point (vn vd : Z) : Z :=
  if vd <=? vn
  then Z.of_nat (String.length (digits_of (vn / vd)))
  else scale_up 400 vn vd 0.

(** [x * 10^p] as a fraction. *)
Definition pow10_frac (p : Z) : Z * Z :=
  if 0 <=? p then (10 ^ p, 1) else (1, 10 ^ (- p)).

(** Is the fraction [c] between [lo] and [hi]? *)
Definition in_interval (closed : bool) (lo hi : Z * Z) (c : Z * Z) : bool :=
  let '(ln, ld) := lo in
  let '(hn, hd) := hi in
  let '(cn, cd) := c in
  if closed then (ln * cd <=? cn * ld) && (cn * hd <=? hn * cd)
  else (ln * cd <? cn * ld) && (cn * hd <? hn * cd).

(** The shortest decimal that reads back as the float [v], as David Gay's
    algorithm finds it in mode 0: the fewest digits [n] for which the
    [n]-digit decimal just below or just above [v] lies in the rounding
    interval [lo .. hi] of the float, the nearer of the two when both do,
    the even one on a tie. Returns the numeral [d] and the power of ten
    [p] of its last digit: the decimal is [d * 10^p]. *)
Fixpoint shortest_from (fuel : nat) (n : Z) (closed : bool)
         (lo v hi : Z * Z) (k : Z) : Z * Z :=
  let '(vn, vd) := v in
  let '(sn, sd) := pow10_frac (k - n) in
  let dlo := (vn * sd) / (vd * sn) in
  let dhi := dlo + 1 in
  let inlo := in_interval closed lo hi (dlo * sn, sd) in
  let inhi := in_interval closed lo hi (dhi * sn, sd) in
  (* twice the distance to the lower candidate, against one grid step *)
  let twice := 2 * (vn * sd - dlo * sn * vd) in
  let step := sn * vd in
  let up := (step <? twice) || ((step =? twice) && Z.odd dlo) in
  match fuel with
  | O => (dlo, k - n)
  | S f =>
      if inlo && inhi then ((if up then dhi else dlo), k - n)
      else if inlo then (dlo, k - n)
      else if inhi then (dhi, k - n)
      else shortest_from f (n + 1) closed lo v hi k
  end.

(** Digits (no trailing zero) and decimal point ([0.digits * 10^decpt]) of
    the float [m * 2^e], [m > 0]. Its neighbours are [2^e] away on both
    sides, except that the one below a power of two is only [2^(e-1)]
    away; the rounding interval ends half-way to them and is closed when
    [m] is even. Everything is kept in units of [2^(e-2)]. *)
Definition shortest (m e : Z) : string * Z :=
  let boundary := (m =? 2 ^ 52) && (-1074 <? e) in
  let E := e - 2 in
  let num x := if 0 <=? E then x * 2 ^ E else x in
  let den := if 0 <=? E then 1 else 2 ^ (- E) in
  let v := (num (4 * m), den) in
  let lo := (num (if boundary then 4 * m - 1 else 4 * m - 2), den) in
  let hi := (num (4 * m + 2), den) in
  let k := decimal_point (fst v) (snd v) in
  let '(d, p) := shortest_from 17 1 (Z.even m) lo v hi k in
  (digits_of (strip_zeros 400 d), Z.of_nat (String.length (digits_of d)) + p).

Definition head_tail (s : string) : string * string :=
  match s with
  | EmptyString => (EmptyString, EmptyString)
  | String c r => (String c EmptyString, r)
  end.

Fixpoint split_at (n : nat) (s : string) : string * string :=
  match n, s with
  | S k, String c r => let '(a, b) := split_at k r in (String c a, b)
  | _, _ => (EmptyString, s)
  end.

(** The layout of [repr]: scientific notation when the decimal point
    falls more than 16 places right of the first digit or more than 3
    places left of it, positional notation with at least one digit after
    the point otherwise. *)
Definition layout (ds : string) (decpt : Z) : string :=
  let n := Z.of_nat (String.length ds) in
  if (decpt <=? -4) || (16 <? decpt) then
    let '(h, t) := head_tail ds in
    let x := decpt - 1 in
    let xs := digits_of (Z.abs x) in
    h +:+ (match t with EmptyString => EmptyString | _ => "." +:+ t end)
      +:+ "e" +:+ (if x <? 0 then "-" else "+")
      +:+ (if Z.abs x <? 10 then "0" else EmptyString) +:+ xs
  else if decpt <=? 0 then
    "0." +:+ zeros (Z.to_nat (- decpt)) +:+ ds
  else if n <=? decpt then
    ds +:+ zeros (Z.to_nat (decpt - n)) +:+ ".0"
  else
    let '(a, b) := split_at (Z.to_nat decpt) ds in a +:+ "." +:+ b.

(** [repr(x)], which is what an f-string substitutes for [{x}]. *)
Definition repr (x : float) : string :=
  match Prim2SF x with
  | S754_nan => "nan"
  | S754_infinity s => if s then "-inf" else "inf"
  | S754_zero s => if s then "-0.0" else "0.0"
  | S754_finite s m e =>
      let '(ds, decpt) := shortest (Zpos m) e in
      (if s then "-" else EmptyString) +:+ layout ds decpt
  end.

End PyFloat.

(** ** Python text *)

Module Unicode.

Local Open Scope N_scope.

(** A Python [str]: its code points. *)
Definition str : Type := list N.

(** [b.decode("latin-1")]: every byte is its own code point. *)
Definition of_latin1 (b : string) : str :=
  List.map N_of_ascii (list_ascii_of_string b).

Definition is_ascii (b : string) : bool :=
  forallb (fun c => N_of_ascii c <? 128) (list_ascii_of_string b).

Definition continuation (n : N) : bool := (128 <=? n) && (n <=? 191).

(** [b.decode("utf-8")], [None] where Python raises [UnicodeDecodeError]:
    one to four bytes a code point, no overlong form, no surrogate,
    nothing above U+10FFFF. *)
Fixpoint of_utf8 (b : string) : option str :=
  match b with
  | EmptyString => Some []
  | String c0 r0 =>
      let n0 := N_of_ascii c0 in
      if n0 <? 128 then option_map (cons n0) (of_utf8 r0)
      else
        match r0 with
        | EmptyString => None
        | String c1 r1 =>
            let n1 := N_of_ascii c1 in
            if (194 <=? n0) && (n0 <=? 223) then
              if continuation n1
              then option_map (cons ((n0 - 192) * 64 + (n1 - 128))) (of_utf8 r1)
              else None
            else
              match r1 with
              | EmptyString => None
              | String c2 r2 =>
                  let n2 := N_of_ascii c2 in
                  if (224 <=? n0) && (n0 <=? 239) then
                    if ((if n0 =? 224 then 160 else 128) <=? n1)
                       && (n1 <=? (if n0 =? 237 then 159 else 191))
                       && continuation n2
                    then option_map
                           (cons ((n0 - 224) * 4096 + (n1 - 128) * 64 + (n2 - 128)))
                           (of_utf8 r2)
                    else None
                  else
                    match r2 with
                    | EmptyString => None
                    | String c3 r3 =>
                        let n3 := N_of_ascii c3 in
                        if (240 <=? n0) && (n0 <=? 244)
                           && ((if n0 =? 240 then 144 else 128) <=? n1)
                           && (n1 <=? (if n0 =? 244 then 143 else 191))
                           && continuation n2 && continuation n3
                        then option_map
                               (cons ((n0 - 240) * 262144 + (n1 - 128) * 4096
                                      + (n2 - 128) * 64 + (n3 - 128)))
                               (of_utf8 r3)
                        else None
                    end
              end
        end
  end.

(** [s.encode("latin-1")] succeeds when no code point is above U+00FF. *)
Definition fits_latin1 (s : str) : bool := forallb (fun n => n <? 256) s.

(** [sep.join(items)] *)
Fixpoint join (sep : str) (items : list str) : str :=
  match items with
  | [] => []
  | [x] => x
  | x :: r => (x ++ sep ++ join sep r)%list
  end.

End Unicode.

(** ** JSON bodies *)

Module Json.

Definition dquote : string := String (Py.chr 34) EmptyString.
Definition backslash : string := String (Py.chr 92) EmptyString.

Definition hex_digit (n : Z) : string :=
  String (Py.chr (if n <? 10 then 48 + n else 87 + n)) EmptyString.

(** One character as [json.dumps(..., ensure_ascii=False)] writes it
    inside a string literal. *)
Definition escape_char (c : ascii) : string :=
  let n := Py.code c in
  if n =? 34 then backslash +:+ dquote
  else if n =? 92 then backslash +:+ backslash
  else if n =? 10 then backslash +:+ "n"
  else if n =? 13 then backslash +:+ "r"
  else if n =? 9 then backslash +:+ "t"
  else if n =? 8 then backslash +:+ "b"
  else if n =? 12 then backslash +:+ "f"
  else if n <? 32 then backslash +:+ "u00" +:+ hex_digit (n / 16) +:+ hex_digit (n mod 16)
  else String c EmptyString.

Fixpoint escape (s : string) : string :=
  match s with
  | EmptyString => EmptyString
  | String c r => escape_char c +:+ escape r
  end.

Definition quoted (s : string) : string := dquote +:+ escape s +:+ dquote.

Fixpoint members (o : list (string * string)) : string :=
  match o with
  | [] => EmptyString
  | [(k, v)] => quoted k +:+ ":" +:+ quoted v
  | (k, v) :: r => quoted k +:+ ":" +:+ quoted v +:+ "," +:+ members r
  end.

(** [json.dumps(o, separators=(",", ":"))] for a dict of strings, the
    rendering of a [JSONResponse]. *)
Definition dumps (o : list (string * string)) : string :=
  "{" +:+ members o +:+ "}".

(** [str.encode("utf-8")] on Latin-1 code points. *)
Definition utf8_char (c : ascii) : list byte :=
  let n := Py.code c in
  if n <? 128 then [byte_of_ascii c]
  else [byte_of_ascii (Py.chr (192 + n / 64)); byte_of_ascii (Py.chr (128 + n mod 64))].

Fixpoint utf8 (s : string) : list byte :=
  match s with
  | EmptyString => []
  | String c r => utf8_char c ++ utf8 r
  end.

End Json.

(** ** HTTP values *)

(** The inbound request as the framework hands it over. [req_wait] is the
    [wait] query parameter once FastAPI has parsed it as a float, [None]
    when the query string has none. *)
Record Request := {
  req_method : string;
  req_path : string;
  req_headers : list (string * string);
  req_wait : option float;
  req_body : list byte
}.

(** [request.headers.get(key)]: header names compare case-insensitively
    and the first match wins. *)
Fixpoint headers_get (h : list (string * string)) (key : string) : option string :=
  match h with
  | [] => None
  | (k, v) :: r =>
      if String.eqb (Py.lower k) (Py.lower key) then Some v else headers_get r key
  end.

(** The responses the program builds: [Response(content, status_code,
    headers)], with the dict of headers it was given (names and values
    are Python strings), and [JSONResponse(status_code, content)]. *)
Inductive HttpResponse :=
| Response (content : list byte) (status_code : Z)
           (headers : list (Unicode.str * Unicode.str))
| JSONResponse (status_code : Z) (content : list (string * string)).

Record HTTPException := { exc_status_code : Z; exc_detail : string }.

Definition response_status (r : HttpResponse) : Z :=
  match r with
  | Response _ st _ => st
  | JSONResponse st _ => st
  end.

Definition response_body (r : HttpResponse) : list byte :=
  match r with
  | Response c _ _ => c
  | JSONResponse _ o => Json.utf8 (Json.dumps o)
  end.

(** What [httpx] is asked to send. [client.get] passes neither content nor
    headers. *)
Record OutboundRequest := {
  out_method : string;
  out_url : string;
  out_content : list byte;
  out_headers : gmap string string;
  out_timeout : float
}.

(** Building a [Response]: Starlette encodes the names and the values of
    [headers] as Latin-1 at once, so [Response(...)] raises
    [UnicodeEncodeError] when one of them holds a code point above U+00FF.
    (It also lower-cases the names and adds a [content-length] when there
    is none; that is below what is modelled here.) *)
Definition encodable (headers : list (Unicode.str * Unicode.str)) : bool :=
  forallb (fun '(k, v) => Unicode.fits_latin1 k && Unicode.fits_latin1 v) headers.

Definition Response_init (content : list byte) (status_code : Z)
           (headers : list (Unicode.str * Unicode.str)) : string + HttpResponse :=
  if encodable headers
  then inr (Response content status_code headers)
  else inl "UnicodeEncodeError".

(** The [httpx.Response] a completed call returns. Its [headers] are the
    header lines as they came, name and value bytes, repeated names
    included; the names are HTTP tokens (the parser under [httpx] takes
    no other), hence ASCII. *)
Module httpx.

Inductive Encoding := ASCII | UTF_8 | ISO_8859_1.

(** The encoding [httpx] reads the headers with: the first of ASCII and
    UTF-8 that decodes every name and every value, Latin-1 failing both. *)
Definition encoding (h : list (string * string)) : Encoding :=
  if forallb (fun '(k, v) => Unicode.is_ascii k && Unicode.is_ascii v) h then ASCII
  else if forallb (fun '(k, v) =>
                     bool_decide (is_Some (Unicode.of_utf8 k))
                     && bool_decide (is_Some (Unicode.of_utf8 v))) h then UTF_8
  else ISO_8859_1.

Definition decode (e : Encoding) (b : string) : Unicode.str :=
  match e with
  | UTF_8 => default (Unicode.of_latin1 b) (Unicode.of_utf8 b)
  | ASCII | ISO_8859_1 => Unicode.of_latin1 b
  end.

(** [bytes.lower()]: the ASCII letters only. *)
Definition lower_byte (c : ascii) : ascii :=
  let n := Py.code c in
  if (65 <=? n) && (n <=? 90) then Py.chr (n + 32) else c.

Fixpoint lower (b : string) : string :=
  match b with
  | EmptyString => EmptyString
  | String c r => String (lower_byte c) (lower r)
  end.

(** The names in [l] in the order they first appear, [seen] apart. *)
Fixpoint first_seen (seen l : list string) : list string :=
  match l with
  | [] => []
  | x :: r =>
      if bool_decide (x ∈ seen) then first_seen seen r
      else x :: first_seen (x :: seen) r
  end.

(** [h.keys()]: the lower-cased names, each once. *)
Definition keys (h : list (string * string)) : list string :=
  first_seen [] (List.map (fun '(k, _) => lower k) h).

(** The values of the lines whose name is [name], in order. *)
Definition values_of (h : list (string * string)) (name : string) : list string :=
  List.map snd (List.filter (fun '(k, _) => String.eqb (lower k) name) h).

(** [h[name]]: the values of the lines with that name, decoded and joined
    with a comma and a space. *)
Definition getitem (h : list (string * string)) (name : string) : Unicode.str :=
  Unicode.join (Unicode.of_latin1 ", ")
               (List.map (decode (encoding h)) (values_of h name)).

Record Response := {
  status_code : Z;
  content : list byte;
  headers : list (string * string)
}.

End httpx.

(** An outbound call either returns a response or raises; [e] is the
    exception, with whatever it tells about the failure. *)
Inductive Outcome :=
| Returned (response : httpx.Response)
| Raised (e : string).

(** [dict(response.headers)]: [dict] asks the mapping for its keys and
    looks each one up, so the dict has one entry for each lower-cased
    name, in the order the names first appear, and repeated headers come
    out joined in one value. *)
Definition dict (h : list (string * string)) : list (Unicode.str * Unicode.str) :=
  List.map (fun name => (httpx.decode (httpx.encoding h) name, httpx.getitem h name))
           (httpx.keys h).

(** ** Configuration *)

Record Config := {
  DOCLING_API_TOKEN : option string;
  DOCLING_API_URL : string
}.

(** The module-level [os.getenv] reads. *)
Definition load_config (env : gmap string string) : Config :=
  let DOCLING_SERVICE_NAME := default "docling-serve-cpu" (env !! "DOCLING_SERVICE_NAME") in
  let DOCLING_SERVICE_PORT := default "3000" (env !! "DOCLING_SERVICE_PORT") in
  {| DOCLING_API_TOKEN := env !! "DOCLING_API_TOKEN";
     DOCLING_API_URL :=
       default ("http://" +:+ DOCLING_SERVICE_NAME +:+ ".railway.internal:" +:+ DOCLING_SERVICE_PORT)
               (env !! "DOCLING_API_URL") |}.

Definition EXCLUDED_PATHS : list string := ["/health"; "/docs"; "/openapi.json"].

(** ** Effects *)

Inductive Level := INFO | ERROR.

Record LogRecord := {
  log_level : Level;
  log_message : string;
  log_exc_info : option string
}.

(** Everything the program can change: what it printed, what it logged,
    the calls it handed to the HTTP client, and the state of the backend
    behind that client. *)
Record World (B : Type) := {
  stdout : list string;
  logs : list LogRecord;
  sent : list OutboundRequest;
  backend : B
}.
Arguments stdout {B} _.
Arguments logs {B} _.
Arguments sent {B} _.
Arguments backend {B} _.

Definition M (B A : Type) : Type := World B -> A * World B.

Definition ret {B A} (a : A) : M B A := fun w => (a, w).

Definition bind {B A C} (m : M B A) (k : A -> M B C) : M B C :=
  fun w => let '(a, w') := m w in k a w'.

Declare Scope proxy_scope.
Delimit Scope proxy_scope with proxy.
Notation "x <- m ;; k" := (bind m (fun x => k))
  (at level 100, m at next level, right associativity) : proxy_scope.
Notation "m ;;; k" := (bind m (fun _ => k))
  (at level 100, right associativity) : proxy_scope.

Definition print {B} (line : string) : M B unit :=
  fun w => (tt, {| stdout := stdout w ++ [line]; logs := logs w;
                   sent := sent w; backend := backend w |}).

Definition logger_emit {B} (r : LogRecord) : M B unit :=
  fun w => (tt, {| stdout := stdout w; logs := logs w ++ [r];
                   sent := sent w; backend := backend w |}).

Definition logger_info {B} (msg : string) : M B unit :=
  logger_emit {| log_level := INFO; log_message := msg; log_exc_info := None |}.

(** [logger.error(msg, exc_info=True)] inside an [except] block. *)
Definition logger_error {B} (msg : string) (e : string) : M B unit :=
  logger_emit {| log_level := ERROR; log_message := msg; log_exc_info := Some e |}.

(** ** The program *)

Section Proxy.

Local Open Scope proxy_scope.
Local Open Scope float_scope.

(** The state of the backend, and what one outbound call does: the
    network, the backend's answer or the exception [httpx] raises. *)
Context {B : Type}.
Variable send : OutboundRequest -> B -> Outcome * B.

(** The configuration read at import time. *)
Variable cfg : Config.

(** What the framework does with a request no declared route takes: the
    generated [/docs] and [/openapi.json] pages, 404 and 405. *)
Variable framework_routes : Request -> HttpResponse.

Definition transport (out : OutboundRequest) : M B Outcome :=
  fun w =>
    let '(r, b) := send out (backend w) in
    (r, {| stdout := stdout w; logs := logs w;
           sent := sent w ++ [out]; backend := b |}).

(** [client.post(url, content=..., headers=..., timeout=...)] *)
Definition client_post (url : string) (content : list byte)
           (headers : gmap string string) (timeout : float) : M B Outcome :=
  transport {| out_method := "POST"; out_url := url; out_content := content;
               out_headers := headers; out_timeout := timeout |}.

(** [client.get(url, timeout=...)] *)
Definition client_get (url : string) (timeout : float) : M B Outcome :=
  transport {| out_method := "GET"; out_url := url; out_content := [];
               out_headers := ∅; out_timeout := timeout |}.

(** The [http] middleware. *)
Definition authenticate_request (request : Request)
           (call_next : Request -> M B HttpResponse) : M B HttpResponse :=
  if bool_decide (req_path request ∈ EXCLUDED_PATHS) then
    response <- call_next request ;;
    ret response
  else if negb (Py.truthy (DOCLING_API_TOKEN cfg)) then
    print "CRITICAL: Proxy configuration error: DOCLING_API_TOKEN not set." ;;;
    ret (JSONResponse 503 [("detail", "Service unavailable: Configuration error")])
  else
    let auth_header := headers_get (req_headers request) "Authorization" in
    if negb (Py.truthy auth_header) then
      ret (JSONResponse 401 [("detail", "Authorization header required")])
    else
      let parts := Py.split 1 (default EmptyString auth_header) in
      match parts with
      | [scheme; token] =>
          if negb (String.eqb (Py.lower scheme) "bearer") then
            ret (JSONResponse 401
                   [("detail", "Invalid Authorization header format. Expected 'Bearer <token>'")])
          else if negb (bool_decide (Some token = DOCLING_API_TOKEN cfg)) then
            ret (JSONResponse 401 [("detail", "Invalid authorization token")])
          else
            response <- call_next request ;;
            ret response
      | _ =>
          ret (JSONResponse 401
                 [("detail", "Invalid Authorization header format. Expected 'Bearer <token>'")])
      end.

(** [GET /health] *)
Definition health : M B (HttpResponse + HTTPException) :=
  ret (inl (JSONResponse 200 [("status", "ok")])).

(** [POST /convert/file]. The inner [match] is the [try] block: the call,
    then the [Response] built from what it returned; what either raises
    goes to the one [except]. *)
Definition proxy_convert_file (request : Request) : M B (HttpResponse + HTTPException) :=
  let content_type := default EmptyString (headers_get (req_headers request) "Content-Type") in
  let raw_body := req_body request in
  let headers : gmap string string := {[ "Content-Type" := content_type ]} in
  let target_url := DOCLING_API_URL cfg +:+ "/v1alpha/convert/file" in
  r <- client_post target_url raw_body headers 300 ;;
  match match r with
        | Returned response =>
            Response_init (httpx.content response) (httpx.status_code response)
                          (dict (httpx.headers response))
        | Raised e => inl e
        end with
  | inr response => ret (inl response)
  | inl e =>
      logger_error ("Error communicating with Docling API at " +:+ target_url +:+ ":") e ;;;
      ret (inr {| exc_status_code := 500;
                  exc_detail := "Error communicating with backend service" |})
  end.

(** [POST /convert/source] *)
Definition proxy_convert_source (request : Request) : M B (HttpResponse + HTTPException) :=
  let content_type := default EmptyString (headers_get (req_headers request) "Content-Type") in
  let raw_body := req_body request in
  let headers : gmap string string := {[ "Content-Type" := content_type ]} in
  let target_url := DOCLING_API_URL cfg +:+ "/v1alpha/convert/source" in
  r <- client_post target_url raw_body headers 300 ;;
  match match r with
        | Returned response =>
            Response_init (httpx.content response) (httpx.status_code response)
                          (dict (httpx.headers response))
        | Raised e => inl e
        end with
  | inr response => ret (inl response)
  | inl e =>
      logger_error ("Error communicating with Docling API at " +:+ target_url +:+ ":") e ;;;
      ret (inr {| exc_status_code := 500;
                  exc_detail := "Error communicating with backend service" |})
  end.

(** [POST /convert/source/async] *)
Definition proxy_convert_source_async (request : Request) : M B (HttpResponse + HTTPException) :=
  let content_type := default EmptyString (headers_get (req_headers request) "Content-Type") in
  let raw_body := req_body request in
  let headers : gmap string string := {[ "Content-Type" := content_type ]} in
  let target_url := DOCLING_API_URL cfg +:+ "/v1alpha/convert/source/async" in
  logger_info ("Forwarding async source conversion request to " +:+ target_url) ;;;
  r <- client_post target_url raw_body headers 30 ;;
  match match r with
        | Returned response =>
            Response_init (httpx.content response) (httpx.status_code response)
                          (dict (httpx.headers response))
        | Raised e => inl e
        end with
  | inr response => ret (inl response)
  | inl e =>
      logger_error ("Error communicating with Docling API at " +:+ target_url +:+ ":") e ;;;
      ret (inr {| exc_status_code := 500;
                  exc_detail := "Error communicating with backend service" |})
  end.

(** [GET /status/poll/{task_id}] *)
Definition proxy_task_status (task_id : string) (request : Request) (wait : float)
  : M B (HttpResponse + HTTPException) :=
  let target_url := DOCLING_API_URL cfg +:+ "/v1alpha/status/poll/" +:+ task_id in
  let target_url :=
    if PyFloat.gt wait 0 then target_url +:+ "?wait=" +:+ PyFloat.repr wait
    else target_url in
  logger_info ("Polling task status from " +:+ target_url) ;;;
  r <- client_get target_url (PyFloat.max (wait + 5) 30) ;;
  match match r with
        | Returned response =>
            Response_init (httpx.content response) (httpx.status_code response)
                          (dict (httpx.headers response))
        | Raised e => inl e
        end with
  | inr response => ret (inl response)
  | inl e =>
      logger_error ("Error communicating with Docling API at " +:+ target_url +:+ ":") e ;;;
      ret (inr {| exc_status_code := 500;
                  exc_detail := "Error communicating with backend service" |})
  end.

(** [GET /result/{task_id}] *)
Definition proxy_task_result (task_id : string) (request : Request)
  : M B (HttpResponse + HTTPException) :=
  let target_url := DOCLING_API_URL cfg +:+ "/v1alpha/result/" +:+ task_id in
  logger_info ("Fetching task result from " +:+ target_url) ;;;
  r <- client_get target_url 60 ;;
  match match r with
        | Returned response =>
            Response_init (httpx.content response) (httpx.status_code response)
                          (dict (httpx.headers response))
        | Raised e => inl e
        end with
  | inr response => ret (inl response)
  | inl e =>
      logger_error ("Error communicating with Docling API at " +:+ target_url +:+ ":") e ;;;
      ret (inr {| exc_status_code := 500;
                  exc_detail := "Error communicating with backend service" |})
  end.

(** *** Routing *)

(** FastAPI answers a raised [HTTPException] with its status and a JSON
    body holding the detail. *)
Definition http_exception_handler (e : HTTPException) : HttpResponse :=
  JSONResponse (exc_status_code e) [("detail", exc_detail e)].

Definition endpoint (h : M B (HttpResponse + HTTPException)) : M B HttpResponse :=
  r <- h ;;
  ret (match r with
       | inl response => response
       | inr e => http_exception_handler e
       end).

(** A path of the form [prefix{param}]: the parameter is one non-empty
    path segment. *)
Definition path_param (prefix path : string) : option string :=
  match Py.removeprefix prefix path with
  | Some (String _ _ as p) => if Py.has_char "/" p then None else Some p
  | _ => None
  end.

(** The six declared routes, in the order of their declaration. *)
Inductive Route :=
| RHealth
| RConvertFile
| RConvertSource
| RConvertSourceAsync
| RStatusPoll (task_id : string)
| RResult (task_id : string).

Definition NL : string := String (Py.chr 10) EmptyString.

(** A route without a parameter: Starlette compiles it to [^route_path$]
    and matches with [re.match], and [$] also matches before one final
    newline. *)
Definition path_is (route_path path : string) : bool :=
  String.eqb path route_path || String.eqb path (route_path +:+ NL).

(** The route of a request. A request for [/health] and a newline is one
    that the gate reads as [/health] (it reads [request.url.path], where
    the newline is gone) and that the routes read as it came; with one
    path for both readings, the health route is taken on [/health]
    itself. *)
Definition match_route (request : Request) : option Route :=
  let m := req_method request in
  let p := req_path request in
  if String.eqb m "GET" && String.eqb p "/health" then Some RHealth
  else if String.eqb m "POST" && path_is "/convert/file" p then Some RConvertFile
  else if String.eqb m "POST" && path_is "/convert/source" p then Some RConvertSource
  else if String.eqb m "POST" && path_is "/convert/source/async" p
  then Some RConvertSourceAsync
  else if String.eqb m "GET" then
    match path_param "/status/poll/" p with
    | Some task_id => Some (RStatusPoll task_id)
    | None =>
        match path_param "/result/" p with
        | Some task_id => Some (RResult task_id)
        | None => None
        end
    end
  else None.

(** [wait: Optional[float] = 0.0] *)
Definition wait_of (request : Request) : float := default 0 (req_wait request).

Definition router (request : Request) : M B HttpResponse :=
  match match_route request with
  | Some RHealth => endpoint health
  | Some RConvertFile => endpoint (proxy_convert_file request)
  | Some RConvertSource => endpoint (proxy_convert_source request)
  | Some RConvertSourceAsync => endpoint (proxy_convert_source_async request)
  | Some (RStatusPoll task_id) => endpoint (proxy_task_status task_id request (wait_of request))
  | Some (RResult task_id) => endpoint (proxy_task_result task_id request)
  | None => ret (framework_routes request)
  end.

(** The application: every request goes through the middleware. *)
Definition app (request : Request) : M B HttpResponse :=
  authenticate_request request router.

End Proxy.

(** ** The calls of the five handlers, side by side

    [forwarded_call] collects, route by route, the arguments the handlers
    above give to [client.post] and [client.get]; [relayed] is the
    [try]/[except] block they share. [router_forward] proves that the
    handlers do exactly this. *)

Section Summary.

Local Open Scope float_scope.

Variable cfg : Config.

(** The URL the status poll asks for: the query is there when [wait > 0]. *)
Definition status_target_url (task_id : string) (wait : float) : string :=
  let target_url := DOCLING_API_URL cfg +:+ "/v1alpha/status/poll/" +:+ task_id in
  if PyFloat.gt wait 0 then target_url +:+ "?wait=" +:+ PyFloat.repr wait
  else target_url.

Definition forwarded_call (request : Request) (route : Route) : option OutboundRequest :=
  let content_type := default EmptyString (headers_get (req_headers request) "Content-Type") in
  let post suffix timeout :=
    Some {| out_method := "POST"; out_url := DOCLING_API_URL cfg +:+ suffix;
            out_content := req_body request;
            out_headers := {[ "Content-Type" := content_type ]};
            out_timeout := timeout |} in
  let get url timeout :=
    Some {| out_method := "GET"; out_url := url; out_content := [];
            out_headers := ∅; out_timeout := timeout |} in
  match route with
  | RHealth => None
  | RConvertFile => post "/v1alpha/convert/file" 300
  | RConvertSource => post "/v1alpha/convert/source" 300
  | RConvertSourceAsync => post "/v1alpha/convert/source/async" 30
  | RStatusPoll task_id =>
      get (status_target_url task_id (wait_of request))
          (PyFloat.max (wait_of request + 5) 30)
  | RResult task_id =>
      get (DOCLING_API_URL cfg +:+ "/v1alpha/result/" +:+ task_id) 60
  end.

(** What the [try] block comes to: the response it builds, or the
    exception it hands to the [except]. *)
Definition attempted (r : Outcome) : string + HttpResponse :=
  match r with
  | Returned response =>
      Response_init (httpx.content response) (httpx.status_code response)
                    (dict (httpx.headers response))
  | Raised e => inl e
  end.

Definition relayed (r : Outcome) : HttpResponse :=
  match attempted r with
  | inr response => response
  | inl _ =>
      JSONResponse 500 [("detail", "Error communicating with backend service")]
  end.

End Summary.

(** The log lines of the handlers, side by side: what a handler announces
    before its call ([logger.info]) and what it records when the call
    raises ([logger.error] with the traceback). [router_logs] proves that
    the handlers log exactly this. *)
Definition announced (route : Route) (target_url : string) : list LogRecord :=
  let info msg := [{| log_level := INFO; log_message := msg; log_exc_info := None |}] in
  match route with
  | RConvertSourceAsync =>
      info ("Forwarding async source conversion request to " +:+ target_url)
  | RStatusPoll _ => info ("Polling task status from " +:+ target_url)
  | RResult _ => info ("Fetching task result from " +:+ target_url)
  | RHealth | RConvertFile | RConvertSource => []
  end.

Definition failure_record (target_url e : string) : LogRecord :=
  {| log_level := ERROR;
     log_message := "Error communicating with Docling API at " +:+ target_url +:+ ":";
     log_exc_info := Some e |}.

Definition CRITICAL_LINE : string :=
  "CRITICAL: Proxy configuration error: DOCLING_API_TOKEN not set.".

(** ** Sample inputs *)

Module Sample.

Local Open Scope float_scope.

Definition cfg : Config :=
  {| DOCLING_API_TOKEN := Some "s3cret";
     DOCLING_API_URL := "http://docling-serve-cpu.railway.internal:3000" |}.

Definition cfg_unset : Config :=
  {| DOCLING_API_TOKEN := None;
     DOCLING_API_URL := "http://docling-serve-cpu.railway.internal:3000" |}.

(** The same deployment after the secret was rotated. *)
Definition cfg_rotated : Config :=
  {| DOCLING_API_TOKEN := Some "r0tated";
     DOCLING_API_URL := "http://docling-serve-cpu.railway.internal:3000" |}.

(** A backend that answers every call, and counts them. *)
Definition backend_response : httpx.Response :=
  {| httpx.status_code := 200;
     httpx.content := list_byte_of_string "{'result':'ok'}";
     httpx.headers := [("Content-Type", "application/json")] |}.

Definition send_ok (out : OutboundRequest) (calls : nat) : Outcome * nat :=
  (Returned backend_response, S calls).



(** A backend that names a price in a header, the euro sign in UTF-8
    (bytes E2 82 AC). *)
Definition euro_response : httpx.Response :=
  {| httpx.status_code := 200;
     httpx.content := list_byte_of_string "ok";
     httpx.headers :=
       [("X-Price", String (Py.chr 226) (String (Py.chr 130) (String (Py.chr 172) "5")))] |}.

Definition send_euro (out : OutboundRequest) (calls : nat) : Outcome * nat :=
  (Returned euro_response, S calls).

(** A backend nobody can reach. *)
Definition send_down (out : OutboundRequest) (calls : nat) : Outcome * nat :=
  (Raised ("ConnectError: All connection attempts failed: " +:+ out_url out), S calls).

Definition not_found (request : Request) : HttpResponse :=
  JSONResponse 404 [("detail", "Not Found")].

Definition world : World nat :=
  {| stdout := []; logs := []; sent := []; backend := O |}.

Definition convert_file : Request :=
  {| req_method := "POST"; req_path := "/convert/file";
     req_headers := [("Authorization", "Bearer s3cret"); ("Content-Type", "application/pdf")];
     req_wait := None;
     req_body := list_byte_of_string "PDFDATA" |}.

Definition convert_file_rotated : Request :=
  {| req_method := "POST"; req_path := "/convert/file";
     req_headers := [("X-Request-Id", "42"); ("authorization", "BEARER r0tated");
                     ("content-type", "application/pdf")];
     req_wait := None;
     req_body := list_byte_of_string "PDFDATA" |}.

Definition convert_source : Request :=
  {| req_method := "POST"; req_path := "/convert/source";
     req_headers := [("authorization", "bearer s3cret"); ("content-type", "application/json")];
     req_wait := None;
     req_body := list_byte_of_string "{}" |}.

Definition status_poll : Request :=
  {| req_method := "GET"; req_path := "/status/poll/abc123";
     req_headers := [("Authorization", "Bearer s3cret")];
     req_wait := Some 2.5;
     req_body := [] |}.

(** A GET that carries a body and a content type all the same. *)
Definition task_result : Request :=
  {| req_method := "GET"; req_path := "/result/abc123";
     req_headers := [("Authorization", "Bearer s3cret"); ("Content-Type", "text/plain")];
     req_wait := None;
     req_body := list_byte_of_string "x" |}.

Definition wrong_token : Request :=
  {| req_method := "POST"; req_path := "/convert/file";
     req_headers := [("Authorization", "bearer WRONGTOKEN")];
     req_wait := None;
     req_body := [] |}.

Definition no_header : Request :=
  {| req_method := "POST"; req_path := "/convert/file";
     req_headers := [("Content-Type", "application/pdf")];
     req_wait := None;
     req_body := [] |}.

(** The header is there, its value is empty. *)
Definition empty_header : Request :=
  {| req_method := "POST"; req_path := "/convert/file";
     req_headers := [("Authorization", EmptyString)];
     req_wait := None;
     req_body := [] |}.

Definition basic_scheme : Request :=
  {| req_method := "POST"; req_path := "/convert/file";
     req_headers := [("Authorization", "Basic s3cret")];
     req_wait := None;
     req_body := [] |}.

(** The calls these requests lead to. *)
Definition convert_file_call : OutboundRequest :=
  {| out_method := "POST";
     out_url := "http://docling-serve-cpu.railway.internal:3000/v1alpha/convert/file";
     out_content := list_byte_of_string "PDFDATA";
     out_headers := {[ "Content-Type" := "application/pdf" ]};
     out_timeout := 300 |}.

Definition convert_source_call : OutboundRequest :=
  {| out_method := "POST";
     out_url := "http://docling-serve-cpu.railway.internal:3000/v1alpha/convert/source";
     out_content := list_byte_of_string "{}";
     out_headers := {[ "Content-Type" := "application/json" ]};
     out_timeout := 300 |}.

Definition status_poll_call : OutboundRequest :=
  {| out_method := "GET";
     out_url := "http://docling-serve-cpu.railway.internal:3000/v1alpha/status/poll/abc123?wait=2.5";
     out_content := [];
     out_headers := ∅;
     out_timeout := 30 |}.

Definition task_result_call : OutboundRequest :=
  {| out_method := "GET";
     out_url := "http://docling-serve-cpu.railway.internal:3000/v1alpha/result/abc123";
     out_content := [];
     out_headers := ∅;
     out_timeout := 60 |}.

(** Whitespace before the scheme, a tab after it, letters in any case. *)
Definition spaced_header : Request :=
  {| req_method := "POST"; req_path := "/convert/file";
     req_headers := [("Authorization", "  bEaReR " +:+ String (Py.chr 9) " s3cret")];
     req_wait := None;
     req_body := [] |}.

(** A secret that was configured with a blank in front. *)
Definition cfg_leading_blank : Config :=
  {| DOCLING_API_TOKEN := Some " s3cret";
     DOCLING_API_URL := "http://docling-serve-cpu.railway.internal:3000" |}.

(** [POST /convert/file%0A]: the path ends in a newline. *)
Definition convert_file_newline : Request :=
  {| req_method := "POST"; req_path := "/convert/file" +:+ String (Py.chr 10) EmptyString;
     req_headers := [("Authorization", "Bearer s3cret"); ("Content-Type", "application/pdf")];
     req_wait := None;
     req_body := list_byte_of_string "PDFDATA" |}.

(** A task id of two segments. *)
Definition nested_result : Request :=
  {| req_method := "GET"; req_path := "/result/abc/123";
     req_headers := [("Authorization", "Bearer s3cret")];
     req_wait := None;
     req_body := [] |}.

(** An environment that names the port only. *)
Definition env_port : gmap string string :=
  {[ "DOCLING_API_TOKEN" := "s3cret"; "DOCLING_SERVICE_PORT" := "8080" ]}.

Definition convert_file_call_8080 : OutboundRequest :=
  {| out_method := "POST";
     out_url := "http://docling-serve-cpu.railway.internal:8080/v1alpha/convert/file";
     out_content := list_byte_of_string "PDFDATA";
     out_headers := {[ "Content-Type" := "application/pdf" ]};
     out_timeout := 300 |}.

(** An environment that names the backend URL, and a port that is then
    of no use. *)
Definition env_url : gmap string string :=
  {[ "DOCLING_API_TOKEN" := "s3cret"; "DOCLING_API_URL" := "http://backend:5001";
     "DOCLING_SERVICE_PORT" := "8080" ]}.

Definition convert_file_call_backend : OutboundRequest :=
  {| out_method := "POST";
     out_url := "http://backend:5001/v1alpha/convert/file";
     out_content := list_byte_of_string "PDFDATA";
     out_headers := {[ "Content-Type" := "application/pdf" ]};
     out_timeout := 300 |}.

Definition get_health : Request :=
  {| req_method := "GET"; req_path := "/health";
     req_headers := []; req_wait := None; req_body := [] |}.

End Sample.

(** The three messages of the 401 answers and the one of the 503. *)
Definition MSG_CONFIG : string := "Service unavailable: Configuration error".
Definition MSG_REQUIRED : string := "Authorization header required".
Definition MSG_FORMAT : string :=
  "Invalid Authorization header format. Expected 'Bearer <token>'".
Definition MSG_TOKEN : string := "Invalid authorization token".
Definition MSG_BACKEND : string := "Error communicating with backend service".

(** * Properties *)

(** ** Python helpers *)

Example split_two : Py.split 1 "Bearer  abc def  " = ["Bearer"; "abc def  "].
Proof. reflexivity. Qed.

Example split_one : Py.split 1 "  Bearer   " = ["Bearer"].
Proof. reflexivity. Qed.

Example split_blank : Py.split 1 "   " = [].
Proof. reflexivity. Qed.

Example lower_bearer : Py.lower "BeArEr" = "bearer".
Proof. reflexivity. Qed.

Example repr_2_5 : PyFloat.repr 2.5 = "2.5".
Proof. vm_compute. reflexivity. Qed.

Example repr_small : PyFloat.repr 0.0000152587890625 = "1.52587890625e-05".
Proof. vm_compute. reflexivity. Qed.

Example repr_third : PyFloat.repr (1 / 3) = "0.3333333333333333".
Proof. vm_compute. reflexivity. Qed.

Example repr_big : PyFloat.repr 1e16 = "1e+16".
Proof. vm_compute. reflexivity. Qed.

Example load_config_defaults :
  load_config {[ "DOCLING_API_TOKEN" := "s3cret" ]} = Sample.cfg.
Proof. vm_compute. reflexivity. Qed.

Example load_config_unset : load_config ∅ = Sample.cfg_unset.
Proof. vm_compute. reflexivity. Qed.

Example json_detail :
  Json.dumps [("detail", MSG_REQUIRED)]
  = "{" +:+ Json.dquote +:+ "detail" +:+ Json.dquote +:+ ":"
        +:+ Json.dquote +:+ "Authorization header required" +:+ Json.dquote +:+ "}".
Proof. reflexivity. Qed.

(** A header that splits in two has a non-empty value and a non-empty
    second token. *)
Lemma split_two_nonempty (h scheme token : string) :
  Py.split 1 h = [scheme; token] -> h <> EmptyString /\ token <> EmptyString.
Proof.
  unfold Py.split. destruct (Py.lstrip h) eqn:Hh; [discriminate |].
  destruct (Py.take_word (String a s)) as [w t].
  destruct (Py.lstrip t) eqn:Ht; [discriminate |].
  intros H. injection H as _ <-. split; [| discriminate].
  intros ->. discriminate.
Qed.

Lemma take_word_app (a b : string) :
  Py.all_chars (fun c => negb (Py.isspace c)) a = true ->
  Py.take_word (a +:+ String " " b) = (a, String " " b).
Proof.
  induction a as [| c a IH]; intros Ha; [reflexivity |].
  cbn in Ha. apply andb_prop in Ha as [Hc Ha].
  change (String c a +:+ String " " b) with (String c (a +:+ String " " b)).
  cbn [Py.take_word]. apply negb_true_iff in Hc. rewrite Hc, (IH Ha). reflexivity.
Qed.

(** The usual header, one space between a scheme without whitespace and a
    token that does not start with whitespace, splits into the two. *)
Lemma split_scheme_token (c d : ascii) (scheme token : string) :
  Py.all_chars (fun c => negb (Py.isspace c)) (String c scheme) = true ->
  Py.isspace d = false ->
  Py.split 1 (String c scheme +:+ String " " (String d token))
  = [String c scheme; String d token].
Proof.
  intros Hscheme Hd.
  pose proof (take_word_app _ (String d token) Hscheme) as Hword.
  cbn in Hscheme. apply andb_prop in Hscheme as [Hc _]. apply negb_true_iff in Hc.
  change (String c scheme +:+ String " " (String d token))
    with (String c (scheme +:+ String " " (String d token))) in *.
  cbn [Py.split Py.lstrip]. rewrite Hc, Hword.
  change (Py.lstrip (String " " (String d token)))
    with (if Py.isspace d then Py.lstrip token else String d token).
  rewrite Hd. reflexivity.
Qed.

Lemma append_grows (s t : string) (c : ascii) : s <> s +:+ String c t.
Proof.
  induction s as [| a s IH]; [discriminate |].
  change (String a s +:+ String c t) with (String a (s +:+ String c t)).
  intros H. injection H as H. exact (IH H).
Qed.

Lemma truthy_nonempty (s : string) : s <> EmptyString -> Py.truthy (Some s) = true.
Proof. destruct s; [congruence | reflexivity]. Qed.

(** *** The dict of the backend's headers *)

Lemma of_latin1_fits (b : string) : Unicode.fits_latin1 (Unicode.of_latin1 b) = true.
Proof.
  unfold Unicode.fits_latin1, Unicode.of_latin1.
  induction b as [| c b IH]; [reflexivity |].
  cbn [list_ascii_of_string List.map forallb]. rewrite IH, andb_true_r.
  destruct c as [[] [] [] [] [] [] [] []]; reflexivity.
Qed.

Lemma fits_latin1_app (s t : Unicode.str) :
  Unicode.fits_latin1 (s ++ t)%list
  = Unicode.fits_latin1 s && Unicode.fits_latin1 t.
Proof. apply forallb_app. Qed.

Lemma join_fits (sep : Unicode.str) (items : list Unicode.str) :
  Unicode.fits_latin1 sep = true ->
  forallb Unicode.fits_latin1 items = true ->
  Unicode.fits_latin1 (Unicode.join sep items) = true.
Proof.
  intros Hsep. induction items as [| x [| y r] IH]; intros Hitems.
  - reflexivity.
  - cbn in Hitems |- *. rewrite andb_true_r in Hitems. exact Hitems.
  - cbn [forallb] in Hitems. apply andb_prop in Hitems as [Hx Hr].
    change (Unicode.join sep (x :: y :: r))
      with (x ++ sep ++ Unicode.join sep (y :: r))%list.
    rewrite !fits_latin1_app, Hx, Hsep, (IH Hr). reflexivity.
Qed.

(** Headers that [httpx] reads as ASCII or as Latin-1 give a dict that
    Starlette can encode: only headers that are UTF-8 throughout can
    hold a character outside Latin-1. *)
Lemma dict_encodable (h : list (string * string)) :
  httpx.encoding h <> httpx.UTF_8 -> encodable (dict h) = true.
Proof.
  intros Henc. unfold encodable, dict. rewrite forallb_forall.
  intros [k v] Hin. apply in_map_iff in Hin as (name & Heq & _).
  injection Heq as <- <-.
  assert (Hdecode : forall b, Unicode.fits_latin1 (httpx.decode (httpx.encoding h) b) = true).
  { intros b. destruct (httpx.encoding h); [| congruence |]; apply of_latin1_fits. }
  rewrite Hdecode. cbn [andb]. unfold httpx.getitem.
  apply join_fits; [reflexivity |].
  rewrite forallb_forall. intros x Hx. apply in_map_iff in Hx as (b & <- & _).
  apply Hdecode.
Qed.




(** ** The auth gate *)

Section Gate.

Context {B : Type}.
Variable send : OutboundRequest -> B -> Outcome * B.
Variable cfg : Config.
Variable framework_routes : Request -> HttpResponse.
Variable request : Request.
Variable w : World B.

(** [bind m ret] runs as [m]. *)
Lemma call_next_through (call_next : Request -> M B HttpResponse) :
  bind (call_next request) (fun response => ret response) w = call_next request w.
Proof. unfold bind, ret. destruct (call_next request w); reflexivity. Qed.

(** C7. A request to an allow-listed path ([/health], [/docs],
    [/openapi.json]) goes through the gate untouched: whatever the
    configuration and the headers, the gate answers what the next stage
    answers. In particular [GET /health] is answered 200 with
    [{"status": "ok"}], secret set or not. *)
Theorem allow_list_bypass :
  req_path request ∈ EXCLUDED_PATHS ->
  (forall call_next, authenticate_request cfg request call_next w = call_next request w)
  /\ (req_method request = "GET" -> req_path request = "/health" ->
      app send cfg framework_routes request w
      = (JSONResponse 200 [("status", "ok")], w)).
Proof.
  intros Hin. split.
  - intros call_next. unfold authenticate_request.
    rewrite bool_decide_eq_true_2 by exact Hin. apply call_next_through.
  - intros Hm Hp. unfold app, authenticate_request.
    rewrite bool_decide_eq_true_2 by exact Hin. rewrite call_next_through.
    unfold router, match_route. rewrite Hm, Hp. reflexivity.
Qed.

Hypothesis protected : req_path request ∉ EXCLUDED_PATHS.

(** C2. With the secret unset or empty, a request to a path off the
    allow-list is answered 503 with the configuration-error message,
    whatever its headers; nothing is sent to the backend. *)
Theorem unset_secret_503 :
  DOCLING_API_TOKEN cfg = None \/ DOCLING_API_TOKEN cfg = Some EmptyString ->
  fst (app send cfg framework_routes request w)
  = JSONResponse 503 [("detail", MSG_CONFIG)]
  /\ sent (snd (app send cfg framework_routes request w)) = sent w.
Proof.
  intros Hunset. unfold app, authenticate_request.
  rewrite bool_decide_eq_false_2 by exact protected.
  destruct Hunset as [-> | ->]; split; reflexivity.
Qed.

Variable secret : string.
Hypothesis configured : DOCLING_API_TOKEN cfg = Some secret.
Hypothesis nonempty : secret <> EmptyString.

(** The gate once the path is protected and the secret is set. *)
Lemma gate_configured (call_next : Request -> M B HttpResponse) :
  authenticate_request cfg request call_next w
  = match headers_get (req_headers request) "Authorization" with
    | None | Some EmptyString => (JSONResponse 401 [("detail", MSG_REQUIRED)], w)
    | Some (String _ _ as h) =>
        match Py.split 1 h with
        | [scheme; token] =>
            if String.eqb (Py.lower scheme) "bearer"
            then if bool_decide (token = secret) then call_next request w
                 else (JSONResponse 401 [("detail", MSG_TOKEN)], w)
            else (JSONResponse 401 [("detail", MSG_FORMAT)], w)
        | _ => (JSONResponse 401 [("detail", MSG_FORMAT)], w)
        end
    end.
Proof.
  unfold authenticate_request.
  rewrite bool_decide_eq_false_2 by exact protected.
  rewrite configured, (truthy_nonempty _ nonempty). cbn [negb].
  destruct (headers_get (req_headers request) "Authorization") as [[| c h] |];
    try reflexivity.
  cbn [Py.truthy negb].
  change (default EmptyString (Some (String c h))) with (String c h).
  destruct (Py.split 1 (String c h)) as [| scheme [| token [| ? ?]]]; try reflexivity.
  destruct (String.eqb (Py.lower scheme) "bearer"); cbn [negb]; [| reflexivity].
  destruct (decide (token = secret)) as [-> | Hne].
  - rewrite !bool_decide_eq_true_2 by reflexivity. cbn [negb].
    apply call_next_through.
  - rewrite (bool_decide_eq_false_2 (Some token = Some secret)) by congruence.
    rewrite (bool_decide_eq_false_2 (token = secret)) by exact Hne. reflexivity.
Qed.

(** C3. With the secret set, a header that splits into a scheme and a
    second token, the scheme being [bearer] in any letter case, is
    answered 401 with the invalid-token message as soon as the second
    token is not the secret, character for character. *)
Theorem wrong_token_401 (h scheme token : string) :
  headers_get (req_headers request) "Authorization" = Some h ->
  Py.split 1 h = [scheme; token] ->
  Py.lower scheme = "bearer" ->
  token <> secret ->
  app send cfg framework_routes request w
  = (JSONResponse 401 [("detail", MSG_TOKEN)], w).
Proof.
  intros Hh Hsplit Hscheme Hne. unfold app. rewrite gate_configured, Hh.
  destruct (split_two_nonempty _ _ _ Hsplit) as [Hnonempty _].
  destruct h as [| c h]; [congruence |].
  rewrite Hsplit, Hscheme, String.eqb_refl.
  rewrite bool_decide_eq_false_2 by exact Hne. reflexivity.
Qed.

(** C4, as the code has it. With the secret set: no [Authorization]
    header, or one whose value is empty, is answered 401 with the
    header-required message; a non-empty value that does not split into
    exactly two tokens with the first one [bearer] in any letter case is
    answered 401 with the format message; the three 401 messages
    differ. *)
Theorem header_checks_401 :
  (headers_get (req_headers request) "Authorization" = None
   \/ headers_get (req_headers request) "Authorization" = Some EmptyString ->
   app send cfg framework_routes request w
   = (JSONResponse 401 [("detail", MSG_REQUIRED)], w))
  /\ (forall h,
        headers_get (req_headers request) "Authorization" = Some h ->
        h <> EmptyString ->
        (forall scheme token,
            Py.split 1 h = [scheme; token] -> Py.lower scheme <> "bearer") ->
        app send cfg framework_routes request w
        = (JSONResponse 401 [("detail", MSG_FORMAT)], w))
  /\ MSG_REQUIRED <> MSG_FORMAT /\ MSG_REQUIRED <> MSG_TOKEN /\ MSG_FORMAT <> MSG_TOKEN.
Proof.
  split; [| split; [| repeat split; discriminate]].
  - intros [Hh | Hh]; unfold app; rewrite gate_configured, Hh; reflexivity.
  - intros h Hh Hnonempty Hformat. unfold app. rewrite gate_configured, Hh.
    destruct h as [| c h]; [congruence |].
    destruct (Py.split 1 (String c h)) as [| scheme [| token [| ? ?]]] eqn:Hsplit;
      try reflexivity.
    specialize (Hformat scheme token eq_refl).
    rewrite (proj2 (String.eqb_neq _ _)) by exact Hformat. reflexivity.
Qed.

End Gate.

(** ** The forwarding handlers *)

Lemma snoc_inj {A} (l : list A) (x y : A) : (l ++ [x] = l ++ [y])%list -> x = y.
Proof. intros H. apply app_inv_head in H. congruence. Qed.

Lemma snoc_grows {A} (l : list A) (x : A) : l <> (l ++ [x])%list.
Proof.
  intros H. apply (f_equal (@List.length A)) in H.
  rewrite List.length_app in H. cbn in H. lia.
Qed.

Lemma contains_has_char (c : ascii) (needle hay : string) :
  Py.startswith hay needle = true -> Py.has_char c needle = true ->
  Py.has_char c hay = true.
Proof.
  revert hay. induction needle as [| a n IH]; intros hay Hs Hc; [discriminate |].
  destruct hay as [| b h]; [discriminate |]. cbn in Hs, Hc |- *.
  destruct (Ascii.eqb_spec a b) as [-> | _]; [| discriminate].
  destruct (Ascii.eqb c b); [reflexivity |]. cbn in Hc |- *. auto.
Qed.

(** A needle holding a character the haystack lacks is not in it. *)
Lemma not_contains (c : ascii) (needle hay : string) :
  Py.has_char c needle = true -> Py.has_char c hay = false ->
  Py.contains hay needle = false.
Proof.
  intros Hn. induction hay as [| b h IH]; intros Hh.
  - destruct needle; [discriminate | reflexivity].
  - cbn in Hh. apply orb_false_elim in Hh as [Hb Hh].
    cbn [Py.contains]. rewrite (IH Hh), orb_false_r.
    destruct (Py.startswith (String b h) needle) eqn:Hs; [| reflexivity].
    pose proof (contains_has_char c _ _ Hs Hn) as H. cbn in H.
    rewrite Hb, Hh in H. discriminate.
Qed.

Lemma has_char_app_r (c : ascii) (a b : string) :
  Py.has_char c b = true -> Py.has_char c (a +:+ b) = true.
Proof.
  intros Hb. induction a as [| d a IH]; [exact Hb |].
  change (Py.has_char c (String d a +:+ b))
    with (Ascii.eqb c d || Py.has_char c (a +:+ b)).
  rewrite IH. apply orb_true_r.
Qed.

Lemma has_char_app_l (c : ascii) (a b : string) :
  Py.has_char c a = true -> Py.has_char c (a +:+ b) = true.
Proof.
  induction a as [| d a IH]; [discriminate |].
  change (Py.has_char c (String d a +:+ b))
    with (Ascii.eqb c d || Py.has_char c (a +:+ b)).
  cbn [Py.has_char]. destruct (Ascii.eqb c d); [reflexivity | exact IH].
Qed.

Lemma endswith_app (a b : string) : Py.endswith (a +:+ b) b = true.
Proof.
  induction a as [| c a IH].
  - change (EmptyString +:+ b) with b.
    destruct b; cbn [Py.endswith]; rewrite String.eqb_refl; reflexivity.
  - change (String c a +:+ b) with (String c (a +:+ b)).
    cbn [Py.endswith]. rewrite IH. apply orb_true_r.
Qed.

Section Forward.

Local Open Scope float_scope.

Context {B : Type}.
Variable send : OutboundRequest -> B -> Outcome * B.
Variable cfg : Config.
Variable framework_routes : Request -> HttpResponse.
Variable request : Request.

(** What the router does on each route, in terms of [forwarded_call]. *)
Lemma router_forward (w : World B) (route : Route) (out : OutboundRequest) :
  match_route request = Some route ->
  forwarded_call cfg request route = Some out ->
  fst (router send cfg framework_routes request w)
  = relayed (fst (send out (backend w)))
  /\ sent (snd (router send cfg framework_routes request w)) = (sent w ++ [out])%list
  /\ backend (snd (router send cfg framework_routes request w))
     = snd (send out (backend w)).
Proof.
  intros Hroute Hout. unfold router. rewrite Hroute.
  destruct route; cbn in Hout; try discriminate; injection Hout as <-;
    unfold endpoint, proxy_convert_file, proxy_convert_source,
      proxy_convert_source_async, proxy_task_status, proxy_task_result,
      client_post, client_get, transport, logger_info, logger_error,
      logger_emit, bind, ret, status_target_url; cbn [backend sent logs stdout];
    match goal with
    | |- context [send ?o ?b] => destruct (send o b) as [[response | e] b']
    end;
    unfold relayed, attempted; cbn [fst snd];
    try destruct (Response_init _ _ _) as [e | built]; cbn; auto.
Qed.

(** Without a forwarding route nothing is sent. *)
Lemma router_silent (w : World B) :
  match_route request = None \/ match_route request = Some RHealth ->
  sent (snd (router send cfg framework_routes request w)) = sent w.
Proof. intros [H | H]; unfold router; rewrite H; reflexivity. Qed.

(** A call left the router: it is the one of the route. *)
Lemma router_call (w : World B) (out : OutboundRequest) :
  sent (snd (router send cfg framework_routes request w)) = (sent w ++ [out])%list ->
  exists route,
    match_route request = Some route
    /\ forwarded_call cfg request route = Some out.
Proof.
  intros Hsent.
  destruct (match_route request) as [route |] eqn:Hroute.
  - destruct (forwarded_call cfg request route) as [out' |] eqn:Hout.
    + destruct (router_forward w route out' Hroute Hout) as (_ & Hsent' & _).
      rewrite Hsent' in Hsent. apply snoc_inj in Hsent as ->. eauto.
    + destruct route; try discriminate.
      rewrite router_silent in Hsent by auto.
      exfalso. exact (snoc_grows _ _ Hsent).
  - rewrite router_silent in Hsent by auto.
    exfalso. exact (snoc_grows _ _ Hsent).
Qed.

(** The gate sends nothing itself: it answers, or it hands over. *)
Lemma gate_sent (w : World B) (call_next : Request -> M B HttpResponse) :
  sent (snd (authenticate_request cfg request call_next w)) = sent w
  \/ authenticate_request cfg request call_next w = call_next request w.
Proof.
  unfold authenticate_request.
  repeat case_match; rewrite ?call_next_through; auto.
Qed.

Lemma app_call (w : World B) (out : OutboundRequest) :
  sent (snd (app send cfg framework_routes request w)) = (sent w ++ [out])%list ->
  exists route,
    match_route request = Some route
    /\ forwarded_call cfg request route = Some out.
Proof.
  unfold app. intros Hsent.
  destruct (gate_sent w (router send cfg framework_routes)) as [Hsame | Hnext].
  - rewrite Hsame in Hsent. exfalso. exact (snoc_grows _ _ Hsent).
  - rewrite Hnext in Hsent. exact (router_call w out Hsent).
Qed.

Lemma forwarded_call_some (route : Route) :
  route <> RHealth -> exists out, forwarded_call cfg request route = Some out.
Proof. destruct route; intros H; try congruence; cbn; eauto. Qed.

Lemma forwarded_url_slash (route : Route) (out : OutboundRequest) :
  forwarded_call cfg request route = Some out ->
  Py.has_char "/" (out_url out) = true.
Proof.
  destruct route; cbn; intros H; try discriminate; injection H as <-; cbn;
    try (apply has_char_app_r; reflexivity).
  unfold status_target_url.
  destruct (PyFloat.gt _ _); [apply has_char_app_l |];
    apply has_char_app_r; reflexivity.
Qed.

End Forward.

(** The call depends on the backend URL, the route, the body, the [wait]
    parameter and the inbound [Content-Type], and on nothing else. *)
Lemma forwarded_call_agree (cfg cfg' : Config) (request request' : Request) (route : Route) :
  DOCLING_API_URL cfg' = DOCLING_API_URL cfg ->
  req_body request' = req_body request ->
  req_wait request' = req_wait request ->
  headers_get (req_headers request') "Content-Type"
  = headers_get (req_headers request) "Content-Type" ->
  forwarded_call cfg' request' route = forwarded_call cfg request route.
Proof.
  intros Hurl Hbody Hwait Hct.
  destruct route; cbn; unfold status_target_url, wait_of;
    rewrite ?Hurl, ?Hbody, ?Hwait, ?Hct; reflexivity.
Qed.

Lemma match_route_agree (request request' : Request) :
  req_method request' = req_method request ->
  req_path request' = req_path request ->
  match_route request' = match_route request.
Proof. intros Hm Hp. unfold match_route. rewrite Hm, Hp. reflexivity. Qed.

(** ** Authorized requests *)

Section Authorized.

Local Open Scope float_scope.

Context {B : Type}.
Variable send : OutboundRequest -> B -> Outcome * B.
Variable cfg : Config.
Variable framework_routes : Request -> HttpResponse.
Variable request : Request.
Variable w : World B.

(** A protected path, and a header [<scheme> <token>] whose scheme is
    [bearer] in any letter case and whose token is the secret. *)
Variables h scheme token : string.
Hypothesis protected : req_path request ∉ EXCLUDED_PATHS.
Hypothesis header : headers_get (req_headers request) "Authorization" = Some h.
Hypothesis two_tokens : Py.split 1 h = [scheme; token].
Hypothesis bearer : Py.lower scheme = "bearer".
Hypothesis valid : DOCLING_API_TOKEN cfg = Some token.

Abbreviation run := (app send cfg framework_routes request w).

Lemma app_authorized : run = router send cfg framework_routes request w.
Proof.
  destruct (split_two_nonempty _ _ _ two_tokens) as [Hh Htoken].
  unfold app.
  rewrite (gate_configured cfg request w protected token valid Htoken), header.
  destruct h as [| c h']; [congruence |].
  rewrite two_tokens, bearer, String.eqb_refl.
  rewrite bool_decide_eq_true_2 by reflexivity. reflexivity.
Qed.

Lemma protected_not_health : match_route request <> Some RHealth.
Proof.
  unfold match_route.
  destruct (String.eqb_spec (req_path request) "/health") as [Hp | _].
  - exfalso. apply protected. rewrite Hp. unfold EXCLUDED_PATHS. set_solver.
  - rewrite andb_false_r. cbn iota. repeat case_match; congruence.
Qed.

(** The one call an authorized request leads to. *)
Lemma authorized_call (out : OutboundRequest) :
  sent (snd run) = (sent w ++ [out])%list ->
  exists route,
    match_route request = Some route
    /\ forwarded_call cfg request route = Some out.
Proof. rewrite app_authorized. apply router_call. Qed.

Lemma authorized_forward (route : Route) :
  match_route request = Some route ->
  exists out,
    forwarded_call cfg request route = Some out
    /\ fst run = relayed (fst (send out (backend w)))
    /\ sent (snd run) = (sent w ++ [out])%list.
Proof.
  intros Hroute.
  destruct (forwarded_call_some cfg request route) as [out Hout].
  { intros ->. exact (protected_not_health Hroute). }
  exists out. rewrite app_authorized.
  destruct (router_forward send cfg framework_routes request w route out Hroute Hout)
    as (Hfst & Hsent & _).
  auto.
Qed.


(** C6. When the call that an authorized request leads to raises, on any
    of the five routes and whatever the exception, the caller gets the
    same answer: status 500 and the JSON body whose detail is the fixed
    message. The body holds the message and does not hold the target
    URL; the exception has no part in it. *)
Theorem backend_failure_500 (out : OutboundRequest) (e : string) (b : B) :
  sent (snd run) = (sent w ++ [out])%list ->
  send out (backend w) = (Raised e, b) ->
  fst run = JSONResponse 500 [("detail", MSG_BACKEND)]
  /\ response_status (fst run) = 500%Z
  /\ Py.contains (string_of_list_byte (response_body (fst run))) MSG_BACKEND = true
  /\ Py.contains (string_of_list_byte (response_body (fst run))) (out_url out) = false.
Proof.
  intros Hsent Hsend.
  destruct (authorized_call out Hsent) as (route & Hroute & Hout).
  destruct (authorized_forward route Hroute) as (out' & Hout' & Hfst & _).
  assert (out' = out) as -> by congruence.
  rewrite Hfst, Hsend. cbn [fst relayed response_status].
  split; [reflexivity |]. split; [reflexivity |]. split.
  - vm_compute. reflexivity.
  - apply (not_contains "/").
    + exact (forwarded_url_slash cfg request route out Hout).
    + vm_compute. reflexivity.
Qed.

(** C5, as the code has it. The three POST routes send the inbound body
    and a headers dict holding the inbound [Content-Type] (the empty
    string when there is none) and nothing else; the two GET routes send
    no body and no headers, whatever the inbound body and content type
    are. *)
Theorem forward_body_and_content_type (route : Route) :
  match_route request = Some route ->
  exists out,
    sent (snd run) = (sent w ++ [out])%list
    /\ (route = RConvertFile \/ route = RConvertSource \/ route = RConvertSourceAsync ->
        out_method out = "POST"
        /\ out_content out = req_body request
        /\ out_headers out
           = {[ "Content-Type" :=
                  default EmptyString (headers_get (req_headers request) "Content-Type") ]})
    /\ ((exists task_id, route = RStatusPoll task_id \/ route = RResult task_id) ->
        out_method out = "GET"
        /\ out_content out = []
        /\ out_headers out = ∅).
Proof.
  intros Hroute.
  destruct (authorized_forward route Hroute) as (out & Hout & _ & Hsent).
  exists out. split; [exact Hsent |]. split.
  - intros [-> | [-> | ->]]; cbn in Hout; injection Hout as <-; auto.
  - intros [task_id [-> | ->]]; cbn in Hout; injection Hout as <-; auto.
Qed.

(** C10. The call that an authorized request leads to carries no inbound
    header but [Content-Type]: on the three POST routes its headers are
    exactly [{Content-Type}], on the two GET routes it has none. No
    [Authorization] header goes to the backend, and the call does not
    depend on the secret: a request with the same method, path, body,
    [wait] and [Content-Type], under any secret and with any other
    headers, leads to the same call when it leads to one. *)
Theorem only_content_type_forwarded (route : Route) (out : OutboundRequest) :
  match_route request = Some route ->
  sent (snd run) = (sent w ++ [out])%list ->
  (route = RConvertFile \/ route = RConvertSource \/ route = RConvertSourceAsync ->
   out_headers out
   = {[ "Content-Type" :=
          default EmptyString (headers_get (req_headers request) "Content-Type") ]})
  /\ ((exists task_id, route = RStatusPoll task_id \/ route = RResult task_id) ->
      out_headers out = ∅)
  /\ (forall name, name <> "Content-Type" -> out_headers out !! name = None)
  /\ (forall name, Py.lower name = "authorization" -> out_headers out !! name = None)
  /\ (forall cfg' request' w' out',
        DOCLING_API_URL cfg' = DOCLING_API_URL cfg ->
        req_method request' = req_method request ->
        req_path request' = req_path request ->
        req_body request' = req_body request ->
        req_wait request' = req_wait request ->
        headers_get (req_headers request') "Content-Type"
        = headers_get (req_headers request) "Content-Type" ->
        sent (snd (app send cfg' framework_routes request' w')) = (sent w' ++ [out'])%list ->
        out' = out).
Proof.
  intros Hroute Hsent.
  destruct (authorized_forward route Hroute) as (out0 & Hout & _ & Hsent').
  rewrite Hsent' in Hsent. apply snoc_inj in Hsent as ->.
  assert (Hother : forall name, name <> "Content-Type" -> out_headers out !! name = None).
  { intros name Hname.
    destruct route; cbn in Hout; try discriminate; injection Hout as <-; cbn;
      first [ apply lookup_singleton_ne; congruence | apply lookup_empty ]. }
  split; [| split; [| split; [| split]]].
  - intros [-> | [-> | ->]]; cbn in Hout; injection Hout as <-; reflexivity.
  - intros [task_id [-> | ->]]; cbn in Hout; injection Hout as <-; reflexivity.
  - exact Hother.
  - intros name Hname. apply Hother. intros ->. discriminate.
  - intros cfg' request' w' out' Hurl Hm Hp Hbody Hwait Hct Hsent.
    destruct (app_call send cfg' framework_routes request' w' out' Hsent)
      as (route' & Hroute' & Hout').
    rewrite (match_route_agree request request' Hm Hp), Hroute in Hroute'.
    injection Hroute' as <-.
    rewrite (forwarded_call_agree cfg cfg' request request' route Hurl Hbody Hwait Hct)
      in Hout'.
    congruence.
Qed.

(** C8. On the status poll route with [wait] parameter [w] (0 when the
    query has none), the backend URL gets the query [?wait=w] when
    [w > 0] and only then, and the timeout of the call is
    [max(w + 5, 30)]: 30 when [w + 5 < 30], [w + 5] otherwise. For
    [w = 2.5] the timeout is 30 and the URL ends in [?wait=2.5]. *)
Theorem status_poll_wait (task_id : string) :
  match_route request = Some (RStatusPoll task_id) ->
  let wait := wait_of request in
  let target_url := DOCLING_API_URL cfg +:+ "/v1alpha/status/poll/" +:+ task_id in
  exists out,
    sent (snd run) = (sent w ++ [out])%list
    /\ (out_url out = target_url +:+ "?wait=" +:+ PyFloat.repr wait
        <-> PyFloat.gt wait 0 = true)
    /\ (out_url out = target_url <-> PyFloat.gt wait 0 = false)
    /\ out_timeout out = PyFloat.max (wait + 5) 30
    /\ (PrimFloat.ltb (wait + 5) 30 = true -> out_timeout out = 30)
    /\ (PrimFloat.ltb (wait + 5) 30 = false -> out_timeout out = wait + 5)
    /\ (req_wait request = None -> out_url out = target_url /\ out_timeout out = 30)
    /\ (req_wait request = Some 2.5 ->
        out_timeout out = 30 /\ Py.endswith (out_url out) "?wait=2.5" = true).
Proof.
  intros Hroute wait target_url.
  destruct (authorized_forward _ Hroute) as (out & Hout & _ & Hsent).
  exists out. split; [exact Hsent |].
  cbn in Hout. injection Hout as <-. cbn [out_url out_timeout].
  unfold status_target_url, PyFloat.max, PyFloat.gt. fold wait target_url.
  repeat apply conj.
  - destruct (PrimFloat.ltb 0 wait); [reflexivity |].
    intros H. exfalso. exact (append_grows _ _ _ H).
  - intros ->. reflexivity.
  - destruct (PrimFloat.ltb 0 wait); [| reflexivity].
    intros H. exfalso. symmetry in H. exact (append_grows _ _ _ H).
  - intros ->. reflexivity.
  - reflexivity.
  - intros ->. reflexivity.
  - intros ->. reflexivity.
  - intros Hnone. unfold wait, wait_of. rewrite Hnone. split; reflexivity.
  - intros Hsome. unfold wait, wait_of. rewrite Hsome. split; [reflexivity |].
    change (PrimFloat.ltb 0 (default 0 (Some 2.5))) with true. cbn iota.
    replace (PyFloat.repr (default 0 (Some 2.5))) with "2.5"
      by (vm_compute; reflexivity).
    apply (endswith_app target_url "?wait=2.5").
Qed.

End Authorized.

(** ** Repeated requests *)

Section Deterministic.

Context {B : Type}.
Variable send : OutboundRequest -> B -> Outcome * B.
Variable cfg : Config.
Variable framework_routes : Request -> HttpResponse.
Variable request : Request.

(** The backend answers a call the same way whatever state it is in. *)
Hypothesis deterministic :
  forall out b1 b2, fst (send out b1) = fst (send out b2).

Lemma router_stateless (w1 w2 : World B) :
  fst (router send cfg framework_routes request w1)
  = fst (router send cfg framework_routes request w2).
Proof.
  destruct (match_route request) as [route |] eqn:Hroute.
  - destruct (forwarded_call cfg request route) as [out |] eqn:Hout.
    + destruct (router_forward send cfg framework_routes request w1 route out
                  Hroute Hout) as (-> & _).
      destruct (router_forward send cfg framework_routes request w2 route out
                  Hroute Hout) as (-> & _).
      f_equal. apply deterministic.
    + destruct route; try discriminate. unfold router. rewrite Hroute. reflexivity.
  - unfold router. rewrite Hroute. reflexivity.
Qed.

Lemma gate_stateless (call_next : Request -> M B HttpResponse) :
  (forall w1 w2, fst (call_next request w1) = fst (call_next request w2)) ->
  forall w1 w2,
    fst (authenticate_request cfg request call_next w1)
    = fst (authenticate_request cfg request call_next w2).
Proof.
  intros Hnext w1 w2. unfold authenticate_request.
  repeat case_match; rewrite ?call_next_through; auto.
Qed.

(** C9. With a backend that answers as a function of the call alone, a
    request gets the same response (status, body and headers) in any two
    runs under the same configuration, whatever was printed, logged or
    sent before; in particular when it is repeated right away. *)
Theorem repeat_same_response (w w' : World B) :
  fst (app send cfg framework_routes request w)
  = fst (app send cfg framework_routes request w')
  /\ fst (app send cfg framework_routes request
              (snd (app send cfg framework_routes request w)))
     = fst (app send cfg framework_routes request w).
Proof.
  split.
  - unfold app. apply gate_stateless. intros. apply router_stateless.
  - unfold app at 1 3. apply gate_stateless. intros. apply router_stateless.
Qed.

End Deterministic.

(** ** The theorems on the sample inputs *)

Ltac off_allow_list :=
  match goal with
  | |- ?p ∉ EXCLUDED_PATHS =>
      apply (bool_decide_eq_false_1 (p ∈ EXCLUDED_PATHS)); vm_compute; reflexivity
  end.

Ltac on_allow_list :=
  match goal with
  | |- ?p ∈ EXCLUDED_PATHS =>
      apply (bool_decide_eq_true_1 (p ∈ EXCLUDED_PATHS)); vm_compute; reflexivity
  end.

Lemma allow_list_bypass_witness :
  Sample.get_health.(req_path) ∈ EXCLUDED_PATHS
  /\ app Sample.send_down Sample.cfg_unset Sample.not_found Sample.get_health Sample.world
     = (JSONResponse 200 [("status", "ok")], Sample.world).
Proof.
  split; [on_allow_list |].
  apply (allow_list_bypass Sample.send_down Sample.cfg_unset Sample.not_found
           Sample.get_health Sample.world); [on_allow_list | reflexivity | reflexivity].
Defined.

Lemma unset_secret_503_witness :
  fst (app Sample.send_ok Sample.cfg_unset Sample.not_found Sample.convert_file Sample.world)
  = JSONResponse 503 [("detail", MSG_CONFIG)]
  /\ sent (snd (app Sample.send_ok Sample.cfg_unset Sample.not_found
                    Sample.convert_file Sample.world)) = [].
Proof.
  apply (unset_secret_503 Sample.send_ok Sample.cfg_unset Sample.not_found
           Sample.convert_file Sample.world); [off_allow_list | left; reflexivity].
Defined.

Lemma wrong_token_401_witness :
  app Sample.send_ok Sample.cfg Sample.not_found Sample.wrong_token Sample.world
  = (JSONResponse 401 [("detail", "Invalid authorization token")], Sample.world).
Proof.
  apply (wrong_token_401 Sample.send_ok Sample.cfg Sample.not_found Sample.wrong_token
           Sample.world ltac:(off_allow_list) "s3cret" eq_refl ltac:(discriminate)
           "bearer WRONGTOKEN" "bearer" "WRONGTOKEN");
    [reflexivity | reflexivity | reflexivity | discriminate].
Defined.

Lemma header_checks_401_witness :
  app Sample.send_ok Sample.cfg Sample.not_found Sample.no_header Sample.world
  = (JSONResponse 401 [("detail", MSG_REQUIRED)], Sample.world)
  /\ app Sample.send_ok Sample.cfg Sample.not_found Sample.basic_scheme Sample.world
     = (JSONResponse 401 [("detail", MSG_FORMAT)], Sample.world).
Proof.
  split.
  - apply (header_checks_401 Sample.send_ok Sample.cfg Sample.not_found Sample.no_header
             Sample.world ltac:(off_allow_list) "s3cret" eq_refl ltac:(discriminate)).
    left. reflexivity.
  - apply (header_checks_401 Sample.send_ok Sample.cfg Sample.not_found
             Sample.basic_scheme Sample.world ltac:(off_allow_list) "s3cret" eq_refl
             ltac:(discriminate))
      with (h := "Basic s3cret"); [reflexivity | discriminate |].
    intros scheme token Hsplit. injection Hsplit as <- _. discriminate.
Defined.


Lemma backend_failure_500_witness :
  fst (app Sample.send_down Sample.cfg Sample.not_found Sample.convert_source Sample.world)
  = JSONResponse 500 [("detail", "Error communicating with backend service")].
Proof.
  apply (backend_failure_500 Sample.send_down Sample.cfg Sample.not_found
           Sample.convert_source Sample.world "bearer s3cret" "bearer" "s3cret"
           ltac:(off_allow_list) eq_refl eq_refl eq_refl eq_refl
           Sample.convert_source_call
           ("ConnectError: All connection attempts failed: " +:+ out_url Sample.convert_source_call)
           1%nat);
    [vm_compute; reflexivity | reflexivity].
Defined.

Lemma forward_body_and_content_type_witness :
  exists out,
    sent (snd (app Sample.send_ok Sample.cfg Sample.not_found Sample.convert_file
                   Sample.world)) = [out]
    /\ out_method out = "POST"
    /\ out_content out = list_byte_of_string "PDFDATA"
    /\ out_headers out = {[ "Content-Type" := "application/pdf" ]}.
Proof.
  destruct (forward_body_and_content_type Sample.send_ok Sample.cfg Sample.not_found
              Sample.convert_file Sample.world "Bearer s3cret" "Bearer" "s3cret"
              ltac:(off_allow_list) eq_refl eq_refl eq_refl eq_refl
              RConvertFile eq_refl) as (out & Hsent & Hpost & _).
  exists out. split; [exact Hsent |]. apply Hpost. left. reflexivity.
Defined.

Lemma only_content_type_forwarded_witness :
  out_headers Sample.convert_file_call = {[ "Content-Type" := "application/pdf" ]}
  /\ out_headers Sample.convert_file_call !! "Authorization" = None
  /\ (forall out',
        sent (snd (app Sample.send_ok Sample.cfg_rotated Sample.not_found
                       Sample.convert_file_rotated Sample.world)) = [out'] ->
        out' = Sample.convert_file_call).
Proof.
  destruct (only_content_type_forwarded Sample.send_ok Sample.cfg Sample.not_found
              Sample.convert_file Sample.world "Bearer s3cret" "Bearer" "s3cret"
              ltac:(off_allow_list) eq_refl eq_refl eq_refl eq_refl
              RConvertFile Sample.convert_file_call eq_refl
              ltac:(vm_compute; reflexivity)) as (Hpost & _ & _ & Hauth & Hsame).
  split; [| split].
  - apply Hpost. left. reflexivity.
  - apply Hauth. reflexivity.
  - intros out'.
    apply (Hsame Sample.cfg_rotated Sample.convert_file_rotated Sample.world out');
      reflexivity.
Defined.

Lemma status_poll_wait_witness :
  exists out,
    sent (snd (app Sample.send_ok Sample.cfg Sample.not_found Sample.status_poll
                   Sample.world)) = [out]
    /\ out_timeout out = 30%float
    /\ Py.endswith (out_url out) "?wait=2.5" = true.
Proof.
  destruct (status_poll_wait Sample.send_ok Sample.cfg Sample.not_found
              Sample.status_poll Sample.world "Bearer s3cret" "Bearer" "s3cret"
              ltac:(off_allow_list) eq_refl eq_refl eq_refl eq_refl
              "abc123" eq_refl) as (out & Hsent & _ & _ & _ & _ & _ & _ & Hwait).
  exists out. split; [exact Hsent |]. apply Hwait. reflexivity.
Defined.

Lemma repeat_same_response_witness :
  fst (app Sample.send_ok Sample.cfg Sample.not_found Sample.convert_file
           (snd (app Sample.send_ok Sample.cfg Sample.not_found Sample.convert_file
                     Sample.world)))
  = fst (app Sample.send_ok Sample.cfg Sample.not_found Sample.convert_file Sample.world).
Proof.
  apply (repeat_same_response Sample.send_ok Sample.cfg Sample.not_found
           Sample.convert_file (fun out b1 b2 => eq_refl) Sample.world Sample.world).
Defined.

(** ** Where the code departs from the wording *)


(** C4 as worded fails on a header that is present with an empty value: it
    does not split into two tokens, yet the answer is the header-required
    message, not the format message. *)
Lemma empty_header_is_required :
  headers_get (req_headers Sample.empty_header) "Authorization" = Some EmptyString
  /\ Py.split 1 EmptyString = []
  /\ fst (app Sample.send_ok Sample.cfg Sample.not_found Sample.empty_header Sample.world)
     = JSONResponse 401 [("detail", MSG_REQUIRED)]
  /\ fst (app Sample.send_ok Sample.cfg Sample.not_found Sample.empty_header Sample.world)
     <> JSONResponse 401 [("detail", MSG_FORMAT)].
Proof.
  split; [reflexivity |]. split; [reflexivity |].
  split; [vm_compute; reflexivity |].
  intros H. vm_compute in H. discriminate H.
Qed.

(** C5 as worded fails on the GET routes: an authorized [GET /result/abc123]
    with body [x] and [Content-Type: text/plain] leads to a call with no
    body and no [Content-Type]. *)
Lemma get_forwards_no_body_no_content_type :
  match_route Sample.task_result = Some (RResult "abc123")
  /\ req_body Sample.task_result = list_byte_of_string "x"
  /\ headers_get (req_headers Sample.task_result) "Content-Type" = Some "text/plain"
  /\ sent (snd (app Sample.send_ok Sample.cfg Sample.not_found Sample.task_result
                    Sample.world)) = [Sample.task_result_call]
  /\ out_content Sample.task_result_call <> req_body Sample.task_result
  /\ out_headers Sample.task_result_call !! "Content-Type" = None.
Proof.
  split; [reflexivity |]. split; [reflexivity |]. split; [reflexivity |].
  split; [vm_compute; reflexivity |]. split; [| reflexivity].
  intros H. vm_compute in H. discriminate H.
Qed.

(** * Further properties of the gate and of the handlers *)

(** ** More on Python strings *)

Lemma append_nil_r (s : string) : s +:+ EmptyString = s.
Proof.
  induction s as [| c s IH]; [reflexivity |].
  change (String c s +:+ EmptyString) with (String c (s +:+ EmptyString)).
  rewrite IH. reflexivity.
Qed.

Lemma append_assoc (a b c : string) : (a +:+ b) +:+ c = a +:+ (b +:+ c).
Proof.
  induction a as [| x a IH]; [reflexivity |].
  change ((String x a +:+ b) +:+ c) with (String x ((a +:+ b) +:+ c)).
  rewrite IH. reflexivity.
Qed.

Lemma removeprefix_app (prefix s r : string) :
  Py.removeprefix prefix s = Some r -> s = prefix +:+ r.
Proof.
  revert s. induction prefix as [| a p IH]; intros s H.
  - cbn in H. injection H as <-. reflexivity.
  - destruct s as [| b s]; [discriminate |]. cbn in H.
    destruct (Ascii.eqb_spec a b) as [-> | _]; [| discriminate].
    change (String b p +:+ r) with (String b (p +:+ r)).
    rewrite <- (IH s H). reflexivity.
Qed.

Lemma lstrip_head (s : string) (c : ascii) (r : string) :
  Py.lstrip s = String c r -> Py.isspace c = false.
Proof.
  induction s as [| d s IH]; [discriminate |]. cbn [Py.lstrip].
  destruct (Py.isspace d) eqn:Hd; [exact IH |].
  intros H. injection H as <- _. exact Hd.
Qed.

Lemma lstrip_blank (ws s : string) :
  Py.all_chars Py.isspace ws = true -> Py.lstrip (ws +:+ s) = Py.lstrip s.
Proof.
  induction ws as [| c ws IH]; [reflexivity |].
  change (String c ws +:+ s) with (String c (ws +:+ s)).
  cbn [Py.lstrip Py.all_chars].
  intros H. apply andb_prop in H as [-> H]. exact (IH H).
Qed.

Lemma take_word_blank (a : string) (d : ascii) (b : string) :
  Py.all_chars (fun c => negb (Py.isspace c)) a = true ->
  Py.isspace d = true ->
  Py.take_word (a +:+ String d b) = (a, String d b).
Proof.
  intros Ha Hd. induction a as [| c a IH].
  - change (EmptyString +:+ String d b) with (String d b).
    cbn [Py.take_word]. rewrite Hd. reflexivity.
  - cbn in Ha. apply andb_prop in Ha as [Hc Ha]. apply negb_true_iff in Hc.
    change (String c a +:+ String d b) with (String c (a +:+ String d b)).
    cbn [Py.take_word]. rewrite Hc, (IH Ha). reflexivity.
Qed.

(** The second part of a split never starts with whitespace. *)
Lemma split_token_head (h scheme token : string) :
  Py.split 1 h = [scheme; token] ->
  exists c r, token = String c r /\ Py.isspace c = false.
Proof.
  unfold Py.split. destruct (Py.lstrip h) eqn:Hh; [discriminate |].
  destruct (Py.take_word (String a s)) as [word t].
  destruct (Py.lstrip t) as [| c r] eqn:Ht; [discriminate |].
  intros H. injection H as _ <-. exists c, r. split; [reflexivity |].
  exact (lstrip_head _ _ _ Ht).
Qed.

Lemma isspace_lower_char (c : ascii) : Py.isspace (Py.lower_char c) = Py.isspace c.
Proof. destruct c as [[] [] [] [] [] [] [] []]; reflexivity. Qed.

(** Lowering letters neither makes nor removes whitespace. *)
Lemma no_space_lower (s : string) :
  Py.all_chars (fun c => negb (Py.isspace c)) (Py.lower s)
  = Py.all_chars (fun c => negb (Py.isspace c)) s.
Proof.
  induction s as [| c s IH]; [reflexivity |]. cbn [Py.lower Py.all_chars].
  rewrite isspace_lower_char, IH. reflexivity.
Qed.

(** Leading whitespace, a word, a whitespace run, then the rest: split in
    the word and the rest. *)
Lemma split_spaced (lead word ws rest : string) (c d : ascii) :
  Py.all_chars Py.isspace lead = true ->
  word <> EmptyString ->
  Py.all_chars (fun c => negb (Py.isspace c)) word = true ->
  Py.all_chars Py.isspace (String d ws) = true ->
  Py.isspace c = false ->
  Py.split 1 (lead +:+ word +:+ String d ws +:+ String c rest)
  = [word; String c rest].
Proof.
  intros Hlead Hne Hword Hws Hc.
  destruct word as [| x word]; [congruence |].
  assert (Hx : Py.isspace x = false).
  { cbn in Hword. apply andb_prop in Hword as [Hx _]. apply negb_true_iff in Hx. exact Hx. }
  unfold Py.split. rewrite (lstrip_blank lead _ Hlead).
  change (String x word +:+ String d ws +:+ String c rest)
    with (String x (word +:+ String d ws +:+ String c rest)).
  cbn [Py.lstrip]. rewrite Hx.
  change (String x (word +:+ String d ws +:+ String c rest))
    with (String x word +:+ String d (ws +:+ String c rest)).
  cbn in Hws. apply andb_prop in Hws as [Hd Hws].
  rewrite (take_word_blank _ d _ Hword Hd).
  change (String d (ws +:+ String c rest)) with (String d ws +:+ String c rest).
  assert (Hblank : Py.all_chars Py.isspace (String d ws) = true).
  { cbn. rewrite Hd, Hws. reflexivity. }
  rewrite (lstrip_blank _ _ Hblank). cbn [Py.lstrip]. rewrite Hc. reflexivity.
Qed.

(** ** What the gate lets through *)

Section GateOutcome.

Context {B : Type}.
Variable send : OutboundRequest -> B -> Outcome * B.
Variable cfg : Config.
Variable framework_routes : Request -> HttpResponse.
Variable request : Request.
Variable w : World B.

Abbreviation run := (app send cfg framework_routes request w).

(** The world after the 503: one more line on the standard output. *)
Let printed : World B :=
  {| stdout := stdout w ++ [CRITICAL_LINE]; logs := logs w;
     sent := sent w; backend := backend w |}.

(** On a protected path the gate hands over only a request whose header
    holds the secret after a bearer scheme; it answers 401 or 503 itself
    otherwise, and the 401 leaves the world as it was. *)
Lemma gate_decides (call_next : Request -> M B HttpResponse) :
  req_path request ∉ EXCLUDED_PATHS ->
  (exists h scheme token,
      headers_get (req_headers request) "Authorization" = Some h
      /\ Py.split 1 h = [scheme; token]
      /\ Py.lower scheme = "bearer"
      /\ DOCLING_API_TOKEN cfg = Some token
      /\ authenticate_request cfg request call_next w = call_next request w)
  \/ (exists msg,
        authenticate_request cfg request call_next w
        = (JSONResponse 401 [("detail", msg)], w))
  \/ (Py.truthy (DOCLING_API_TOKEN cfg) = false
      /\ authenticate_request cfg request call_next w
         = (JSONResponse 503 [("detail", MSG_CONFIG)], printed)).
Proof.
  intros protected.
  destruct (DOCLING_API_TOKEN cfg) as [[| c secret] |] eqn:Hcfg.
  - right. right. split; [reflexivity |].
    unfold authenticate_request.
    rewrite bool_decide_eq_false_2, Hcfg by exact protected. reflexivity.
  - rewrite (gate_configured cfg request w protected (String c secret) Hcfg)
      by discriminate.
    destruct (headers_get (req_headers request) "Authorization") as [[| x h] |] eqn:Hh;
      [right; left; eauto | | right; left; eauto].
    destruct (Py.split 1 (String x h)) as [| scheme [| token [| ? ?]]] eqn:Hsplit;
      try (right; left; eauto; fail).
    destruct (String.eqb_spec (Py.lower scheme) "bearer") as [Hscheme | _];
      [| right; left; eauto].
    destruct (decide (token = String c secret)) as [-> | Hne].
    + left. exists (String x h), scheme, (String c secret).
      rewrite bool_decide_eq_true_2 by reflexivity. auto.
    + right. left. rewrite bool_decide_eq_false_2 by exact Hne. eauto.
  - right. right. split; [reflexivity |].
    unfold authenticate_request.
    rewrite bool_decide_eq_false_2, Hcfg by exact protected. reflexivity.
Qed.

(** X1. A request to a protected path that carries no header with the
    scheme [bearer] and the configured secret as its token is not
    forwarded: it is answered 401 and nothing changes, or it is answered
    503 (the secret is unset or empty) and nothing changes but one
    [CRITICAL] line more on the standard output; the backend, the log and
    the list of calls are as they were. *)
Theorem fail_closed :
  req_path request ∉ EXCLUDED_PATHS ->
  (forall h scheme token,
      headers_get (req_headers request) "Authorization" = Some h ->
      Py.split 1 h = [scheme; token] ->
      Py.lower scheme = "bearer" ->
      DOCLING_API_TOKEN cfg <> Some token) ->
  (response_status (fst run) = 401 /\ snd run = w)
  \/ (response_status (fst run) = 503
      /\ Py.truthy (DOCLING_API_TOKEN cfg) = false
      /\ stdout (snd run) = (stdout w ++ [CRITICAL_LINE])%list
      /\ logs (snd run) = logs w
      /\ sent (snd run) = sent w
      /\ backend (snd run) = backend w).
Proof.
  intros protected Hbad. unfold app.
  destruct (gate_decides (router send cfg framework_routes) protected)
    as [(h & scheme & token & Hh & Hsplit & Hscheme & Hcfg & _) | [[msg ->] | [Hunset ->]]].
  - exfalso. exact (Hbad h scheme token Hh Hsplit Hscheme Hcfg).
  - left. split; reflexivity.
  - right. split; [reflexivity |]. split; [exact Hunset |].
    repeat split; reflexivity.
Qed.

(** X7. A secret configured with a whitespace character in front cannot
    be presented: the token that the gate cuts out of a header never
    starts with whitespace, so every request to a protected path is
    answered 401 and the world is left as it was. *)
Theorem leading_blank_secret_locks_out (c : ascii) (secret : string) :
  req_path request ∉ EXCLUDED_PATHS ->
  DOCLING_API_TOKEN cfg = Some (String c secret) ->
  Py.isspace c = true ->
  response_status (fst run) = 401 /\ snd run = w.
Proof.
  intros protected Hcfg Hc. unfold app.
  destruct (gate_decides (router send cfg framework_routes) protected)
    as [(h & scheme & token & _ & Hsplit & _ & Htoken & _) | [[msg ->] | [Hunset _]]].
  - exfalso. destruct (split_token_head _ _ _ Hsplit) as (x & r & -> & Hx).
    rewrite Hcfg in Htoken. injection Htoken as <- _. congruence.
  - split; reflexivity.
  - rewrite Hcfg in Hunset. discriminate.
Qed.

(** X6. The gate accepts the secret however the header is spaced and
    cased: whitespace before the scheme, the scheme [bearer] in any letter
    case, any non-empty run of whitespace after it, then the secret (a
    secret that does not start with whitespace). The request then runs as
    the routes run it. *)
Theorem spaced_bearer_passes (lead scheme ws : string) (d c : ascii) (secret : string) :
  req_path request ∉ EXCLUDED_PATHS ->
  DOCLING_API_TOKEN cfg = Some (String c secret) ->
  Py.isspace c = false ->
  Py.all_chars Py.isspace lead = true ->
  Py.lower scheme = "bearer" ->
  Py.all_chars Py.isspace (String d ws) = true ->
  headers_get (req_headers request) "Authorization"
  = Some (lead +:+ scheme +:+ String d ws +:+ String c secret) ->
  run = router send cfg framework_routes request w.
Proof.
  intros protected Hcfg Hc Hlead Hscheme Hws Hh.
  assert (Hword : Py.all_chars (fun c => negb (Py.isspace c)) scheme = true).
  { rewrite <- no_space_lower, Hscheme. reflexivity. }
  assert (Hne : scheme <> EmptyString) by (intros ->; discriminate).
  pose proof (split_spaced lead scheme ws secret c d Hlead Hne Hword Hws Hc) as Hsplit.
  unfold app.
  rewrite (gate_configured cfg request w protected (String c secret) Hcfg)
    by discriminate.
  rewrite Hh.
  destruct (lead +:+ scheme +:+ String d ws +:+ String c secret) as [| x h] eqn:Hvalue.
  { discriminate. }
  rewrite Hsplit, Hscheme, String.eqb_refl.
  rewrite bool_decide_eq_true_2 by reflexivity. reflexivity.
Qed.

End GateOutcome.

(** ** What goes to the backend *)

(** Where a route comes from: the method and the path of the request. *)
Lemma match_route_shape (request : Request) (route : Route) :
  match_route request = Some route ->
  match route with
  | RHealth => req_method request = "GET" /\ req_path request = "/health"
  | RConvertFile =>
      req_method request = "POST"
      /\ (req_path request = "/convert/file"
          \/ req_path request = "/convert/file" +:+ NL)
  | RConvertSource =>
      req_method request = "POST"
      /\ (req_path request = "/convert/source"
          \/ req_path request = "/convert/source" +:+ NL)
  | RConvertSourceAsync =>
      req_method request = "POST"
      /\ (req_path request = "/convert/source/async"
          \/ req_path request = "/convert/source/async" +:+ NL)
  | RStatusPoll task_id =>
      req_method request = "GET" /\ req_path request = "/status/poll/" +:+ task_id
      /\ task_id <> EmptyString /\ Py.has_char "/" task_id = false
  | RResult task_id =>
      req_method request = "GET" /\ req_path request = "/result/" +:+ task_id
      /\ task_id <> EmptyString /\ Py.has_char "/" task_id = false
  end.
Proof.
  assert (Hparam : forall prefix path p,
             path_param prefix path = Some p ->
             path = prefix +:+ p /\ p <> EmptyString /\ Py.has_char "/" p = false).
  { intros prefix path p. unfold path_param.
    destruct (Py.removeprefix prefix path) as [[| x r] |] eqn:Hr; try discriminate.
    destruct (Py.has_char "/" (String x r)) eqn:Hslash; [discriminate |].
    intros H. injection H as <-.
    split; [exact (removeprefix_app _ _ _ Hr) | split; [discriminate | exact Hslash]]. }
  unfold match_route, path_is.
  destruct (String.eqb_spec (req_method request) "GET") as [Hget | _];
    destruct (String.eqb_spec (req_method request) "POST") as [Hpost | _];
    repeat match goal with
      | |- context [String.eqb (req_path request) ?p] =>
          destruct (String.eqb_spec (req_path request) p)
      end;
    cbn [andb orb];
    try (intros H; injection H as <-; auto; fail);
    try discriminate.
  all: destruct (path_param "/status/poll/" (req_path request)) as [p |] eqn:Hpoll;
    [ intros H; injection H as <-; destruct (Hparam _ _ _ Hpoll) as (? & ? & ?); auto | ].
  all: destruct (path_param "/result/" (req_path request)) as [p |] eqn:Hres;
    [ intros H; injection H as <-; destruct (Hparam _ _ _ Hres) as (? & ? & ?); auto
    | discriminate ].
Qed.

Section Forwarded.

Local Open Scope float_scope.

Context {B : Type}.
Variable send : OutboundRequest -> B -> Outcome * B.
Variable cfg : Config.
Variable framework_routes : Request -> HttpResponse.
Variable request : Request.
Variable w : World B.

Abbreviation run := (app send cfg framework_routes request w).

(** Whatever the path, the gate hands over or leaves calls, log and
    backend alone. *)
Lemma gate_outcome (call_next : Request -> M B HttpResponse) :
  authenticate_request cfg request call_next w = call_next request w
  \/ (sent (snd (authenticate_request cfg request call_next w)) = sent w
      /\ logs (snd (authenticate_request cfg request call_next w)) = logs w
      /\ backend (snd (authenticate_request cfg request call_next w)) = backend w).
Proof.
  unfold authenticate_request.
  repeat case_match; rewrite ?call_next_through; auto.
Qed.

(** The health route and the routes of the framework leave the world
    alone. *)
Lemma router_idle :
  match_route request = None \/ match_route request = Some RHealth ->
  snd (router send cfg framework_routes request w) = w.
Proof. intros [H | H]; unfold router; rewrite H; reflexivity. Qed.

(** What the router writes to the log on each route. *)
Lemma router_logs (route : Route) (out : OutboundRequest) :
  match_route request = Some route ->
  forwarded_call cfg request route = Some out ->
  logs (snd (router send cfg framework_routes request w))
  = (logs w ++ announced route (out_url out)
       ++ match fst (send out (backend w)) with
          | Raised e => [failure_record (out_url out) e]
          | Returned response =>
              if encodable (dict (httpx.headers response)) then []
              else [failure_record (out_url out) "UnicodeEncodeError"]
          end)%list
  /\ stdout (snd (router send cfg framework_routes request w)) = stdout w.
Proof.
  intros Hroute Hout. unfold router. rewrite Hroute.
  destruct route; cbn in Hout; try discriminate; injection Hout as <-;
    unfold endpoint, proxy_convert_file, proxy_convert_source,
      proxy_convert_source_async, proxy_task_status, proxy_task_result,
      client_post, client_get, transport, logger_info, logger_error,
      logger_emit, bind, ret, status_target_url, announced, failure_record,
      Response_init;
    cbn [backend sent logs stdout out_url];
    match goal with
    | |- context [send ?o ?b] => destruct (send o b) as [[response | e] b']
    end; cbn [fst snd];
    try destruct (encodable (dict (httpx.headers response)));
    cbn [fst snd logs stdout];
    rewrite <- ?app_assoc, ?app_nil_r; auto.
Qed.

(** The call of a run and its route. *)
Lemma run_call (out : OutboundRequest) :
  sent (snd run) = (sent w ++ [out])%list ->
  run = router send cfg framework_routes request w
  /\ exists route,
      match_route request = Some route
      /\ forwarded_call cfg request route = Some out.
Proof.
  intros Hsent. unfold app in *.
  destruct (gate_outcome (router send cfg framework_routes)) as [Hnext | (Hsame & _)].
  - split; [exact Hnext |]. rewrite Hnext in Hsent. exact (router_call _ _ _ _ _ _ Hsent).
  - rewrite Hsame in Hsent. exfalso. exact (snoc_grows _ _ Hsent).
Qed.

(** X2. One request leads to at most one call, whether the call returns
    or raises: either nothing is sent and the backend is left alone, or
    exactly one call is sent and the backend moves by that one call. *)
Theorem at_most_one_call :
  (sent (snd (app send cfg framework_routes request w)) = sent w
   /\ backend (snd (app send cfg framework_routes request w)) = backend w)
  \/ (exists out,
         sent (snd (app send cfg framework_routes request w)) = (sent w ++ [out])%list
         /\ backend (snd (app send cfg framework_routes request w))
            = snd (send out (backend w))).
Proof.
  unfold app.
  destruct (gate_outcome (router send cfg framework_routes)) as [-> | (Hsent & _ & Hb)];
    [| left; auto].
  destruct (match_route request) as [route |] eqn:Hroute.
  - destruct (forwarded_call cfg request route) as [out |] eqn:Hout.
    + right. exists out.
      destruct (router_forward send cfg framework_routes request w route out Hroute Hout)
        as (_ & Hsent & Hb). auto.
    + left. destruct route; try discriminate. rewrite router_idle by auto. auto.
  - left. rewrite router_idle by auto. auto.
Qed.

(** The URL of a call: the backend URL, [/v1alpha], the path of the
    request (less the final newline that a POST route lets through), and
    the [wait] query of a status poll. *)
Lemma call_url (route : Route) (out : OutboundRequest) :
  match_route request = Some route ->
  forwarded_call cfg request route = Some out ->
  out_method out = req_method request
  /\ exists path,
      (req_path request = path
       \/ (req_method request = "POST" /\ req_path request = path +:+ NL))
      /\ out_url out
         = DOCLING_API_URL cfg +:+ "/v1alpha" +:+ path
           +:+ match route with
               | RStatusPoll _ =>
                   if PyFloat.gt (wait_of request) 0
                   then "?wait=" +:+ PyFloat.repr (wait_of request)
                   else EmptyString
               | _ => EmptyString
               end.
Proof.
  intros Hroute Hout. pose proof (match_route_shape request route Hroute) as Hshape.
  destruct route; cbn in Hout; try discriminate; injection Hout as <-;
    cbn [out_method out_url].
  - destruct Hshape as (Hm & Hp). rewrite Hm. split; [reflexivity |].
    exists "/convert/file". split; [destruct Hp; auto | reflexivity].
  - destruct Hshape as (Hm & Hp). rewrite Hm. split; [reflexivity |].
    exists "/convert/source". split; [destruct Hp; auto | reflexivity].
  - destruct Hshape as (Hm & Hp). rewrite Hm. split; [reflexivity |].
    exists "/convert/source/async". split; [destruct Hp; auto | reflexivity].
  - destruct Hshape as (-> & Hp & _). split; [reflexivity |].
    exists (req_path request). split; [left; reflexivity |]. rewrite Hp.
    unfold status_target_url. destruct (PyFloat.gt (wait_of request) 0).
    + rewrite append_assoc. reflexivity.
    + rewrite append_nil_r. reflexivity.
  - destruct Hshape as (-> & Hp & _). split; [reflexivity |].
    exists (req_path request). split; [left; reflexivity |]. rewrite Hp.
    rewrite append_nil_r. reflexivity.
Qed.

(** X3. The call that a request leads to has the method of the request,
    and the URL string handed to the HTTP client is the configured backend
    URL, then [/v1alpha], then the path of the request character for
    character, with two provisos: a POST path that ends in a newline (the
    route patterns let one through) goes without it, and a status poll
    with [wait > 0] has the [wait] query after the path. What the client
    makes of that string when it parses it as a URL (a task id holding
    [?] or [..], say) is not part of this. *)
Theorem same_method_and_path (out : OutboundRequest) :
  sent (snd run) = (sent w ++ [out])%list ->
  out_method out = req_method request
  /\ (out_method out = "GET" \/ out_method out = "POST")
  /\ exists path,
      (req_path request = path
       \/ (req_method request = "POST" /\ req_path request = path +:+ NL))
      /\ out_url out
         = DOCLING_API_URL cfg +:+ "/v1alpha" +:+ path
           +:+ match match_route request with
               | Some (RStatusPoll _) =>
                   if PyFloat.gt (wait_of request) 0
                   then "?wait=" +:+ PyFloat.repr (wait_of request)
                   else EmptyString
               | _ => EmptyString
               end.
Proof.
  intros Hsent. destruct (run_call out Hsent) as (_ & route & Hroute & Hout).
  destruct (call_url route out Hroute Hout) as (Hmethod & Hurl).
  rewrite Hroute. split; [exact Hmethod |]. split; [| exact Hurl].
  destruct route; cbn in Hout; try discriminate; injection Hout as <-; cbn; auto.
Qed.

(** X4. What the handlers write to the log for a forwarded request: the
    line the handler announces the call with (none on [/convert/file] and
    [/convert/source]) and then one record at error level, holding the
    target URL and the exception, when the call raises and also when the
    call returns but the [Response] cannot be built from its headers. A
    call that returns headers Starlette can encode leaves nothing at error
    level, whatever status the backend answers. The handlers print
    nothing. *)
Theorem calls_are_logged (out : OutboundRequest) :
  sent (snd run) = (sent w ++ [out])%list ->
  exists route,
    match_route request = Some route
    /\ logs (snd run)
       = (logs w ++ announced route (out_url out)
            ++ match fst (send out (backend w)) with
               | Raised e => [failure_record (out_url out) e]
               | Returned response =>
                   if encodable (dict (httpx.headers response)) then []
                   else [failure_record (out_url out) "UnicodeEncodeError"]
               end)%list
    /\ stdout (snd run) = stdout w.
Proof.
  intros Hsent. destruct (run_call out Hsent) as (-> & route & Hroute & Hout).
  exists route. split; [exact Hroute |]. exact (router_logs route out Hroute Hout).
Qed.

End Forwarded.

(** ** Timeouts *)

Lemma SFcompare_antisym (x y : spec_float) :
  SFcompare y x = option_map CompOpp (SFcompare x y).
Proof.
  destruct x as [s | s | | s m e], y as [s' | s' | | s' m' e']; cbn;
    try reflexivity; try (destruct s; reflexivity); try (destruct s'; reflexivity);
    try (destruct s, s'; reflexivity).
  f_equal. destruct s, s'; try reflexivity;
    rewrite (Z.compare_antisym e e'); destruct (e ?= e')%Z; cbn; try reflexivity.
  - f_equal. exact (eq_sym (Pos.compare_cont_antisym m m' Eq)).
  - exact (eq_sym (Pos.compare_cont_antisym m m' Eq)).
Qed.

(** [a < a] is false on floats, NaN included. *)
Lemma ltb_irrefl (a : float) : PrimFloat.ltb a a = false.
Proof.
  rewrite ltb_spec. unfold SFltb.
  pose proof (SFcompare_antisym (Prim2SF a) (Prim2SF a)) as H.
  destruct (SFcompare (Prim2SF a) (Prim2SF a)) as [[] |]; try reflexivity.
  discriminate H.
Qed.

(** [a < b] excludes [b < a]. *)
Lemma ltb_asym (a b : float) : PrimFloat.ltb a b = true -> PrimFloat.ltb b a = false.
Proof.
  rewrite !ltb_spec. unfold SFltb.
  rewrite (SFcompare_antisym (Prim2SF a) (Prim2SF b)).
  destruct (SFcompare (Prim2SF a) (Prim2SF b)) as [[] |]; cbn; congruence.
Qed.

(** [max(a, b)] is below neither argument. *)
Lemma max_not_below (a b : float) :
  PrimFloat.ltb (PyFloat.max a b) a = false /\ PrimFloat.ltb (PyFloat.max a b) b = false.
Proof.
  unfold PyFloat.max, PyFloat.gt.
  destruct (PrimFloat.ltb a b) eqn:Hab.
  - split; [exact (ltb_asym _ _ Hab) | apply ltb_irrefl].
  - split; [apply ltb_irrefl | exact Hab].
Qed.

Section Timeouts.

Local Open Scope float_scope.

Context {B : Type}.
Variable send : OutboundRequest -> B -> Outcome * B.
Variable cfg : Config.
Variable framework_routes : Request -> HttpResponse.
Variable request : Request.
Variable w : World B.

(** X5. Every call is given a timeout, and none below 30 seconds: 300 on
    the two conversions, 30 on the asynchronous one, 60 on the result, and
    on a status poll a timeout that is below neither 30 nor [wait + 5],
    whatever [wait] is (negative, infinite or NaN). *)
Theorem timeout_floor (out : OutboundRequest) :
  sent (snd (app send cfg framework_routes request w)) = (sent w ++ [out])%list ->
  PrimFloat.ltb (out_timeout out) 30 = false
  /\ match match_route request with
     | Some RConvertFile | Some RConvertSource => out_timeout out = 300
     | Some RConvertSourceAsync => out_timeout out = 30
     | Some (RResult _) => out_timeout out = 60
     | Some (RStatusPoll _) =>
         PrimFloat.ltb (out_timeout out) (wait_of request + 5) = false
     | _ => False
     end.
Proof.
  intros Hsent.
  destruct (run_call send cfg framework_routes request w out Hsent)
    as (_ & route & Hroute & Hout).
  rewrite Hroute.
  destruct route; cbn in Hout; try discriminate; injection Hout as <-;
    cbn [out_timeout]; try (split; reflexivity).
  destruct (max_not_below (wait_of request + 5) 30) as [Hwait Hfloor].
  split; assumption.
Qed.

End Timeouts.

(** ** Task ids and the environment *)

(** The URL of a call is the configured base, [/v1alpha/] and a rest
    that the configuration has no part in. *)
Lemma forwarded_url_rest (cfg cfg' : Config) (request : Request) (route : Route)
      (out out' : OutboundRequest) :
  forwarded_call cfg request route = Some out ->
  forwarded_call cfg' request route = Some out' ->
  exists rest,
    out_url out = DOCLING_API_URL cfg +:+ "/v1alpha/" +:+ rest
    /\ out_url out' = DOCLING_API_URL cfg' +:+ "/v1alpha/" +:+ rest.
Proof.
  intros Hout Hout'.
  destruct route; cbn in Hout, Hout'; try discriminate;
    injection Hout as <-; injection Hout' as <-; cbn [out_url].
  - exists "convert/file". split; reflexivity.
  - exists "convert/source". split; reflexivity.
  - exists "convert/source/async". split; reflexivity.
  - unfold status_target_url. destruct (PyFloat.gt (wait_of request) 0).
    + exists ("status/poll/" +:+ task_id +:+ "?wait=" +:+ PyFloat.repr (wait_of request)).
      rewrite !append_assoc. split; reflexivity.
    + exists ("status/poll/" +:+ task_id). split; reflexivity.
  - exists ("result/" +:+ task_id). split; reflexivity.
Qed.

Section Targets.

Context {B : Type}.
Variable send : OutboundRequest -> B -> Outcome * B.
Variable framework_routes : Request -> HttpResponse.
Variable request : Request.
Variable w : World B.

(** X9. A task id is one non-empty path segment: a request for
    [/result/] or [/status/poll/] followed by nothing, or by an id with a
    [/] in it, matches no route of the proxy, so nothing is sent to the
    backend for it, valid token or not. *)
Theorem task_id_is_one_segment (cfg : Config) (task_id : string) :
  req_path request = "/result/" +:+ task_id
  \/ req_path request = "/status/poll/" +:+ task_id ->
  task_id = EmptyString \/ Py.has_char "/" task_id = true ->
  match_route request = None
  /\ sent (snd (app send cfg framework_routes request w)) = sent w
  /\ backend (snd (app send cfg framework_routes request w)) = backend w.
Proof.
  intros Hpath Hid.
  assert (Hnone : match_route request = None).
  { destruct (match_route request) as [route |] eqn:Hroute; [exfalso | reflexivity].
    pose proof (match_route_shape request route Hroute) as Hshape.
    destruct route as [| | | | id | id];
      try (destruct Hshape as (_ & Hp); rewrite Hp in Hpath;
           destruct Hpath as [H | H]; discriminate H);
      try (destruct Hshape as (_ & [Hp | Hp]); rewrite Hp in Hpath;
           destruct Hpath as [H | H]; discriminate H).
    - destruct Hshape as (_ & Hp & Hne & Hslash). rewrite Hp in Hpath.
      destruct Hpath as [H | H]; [discriminate H |].
      cbn in H. injection H as Heq. change (id = task_id) in Heq.
      destruct Hid as [Hid | Hid]; [rewrite Hid in Heq; exact (Hne Heq) |].
      rewrite <- Heq in Hid. congruence.
    - destruct Hshape as (_ & Hp & Hne & Hslash). rewrite Hp in Hpath.
      destruct Hpath as [H | H]; [| discriminate H].
      cbn in H. injection H as Heq. change (id = task_id) in Heq.
      destruct Hid as [Hid | Hid]; [rewrite Hid in Heq; exact (Hne Heq) |].
      rewrite <- Heq in Hid. congruence. }
  split; [exact Hnone |]. unfold app.
  destruct (gate_outcome cfg request w (router send cfg framework_routes))
    as [-> | (Hsent & _ & Hb)]; [| auto].
  rewrite (router_idle send cfg framework_routes request w) by auto. auto.
Qed.

(** X8. Where the calls go, from the environment: when
    [DOCLING_API_URL] is set, even to the empty string, it is the base of
    the URL of every call and the service name and port play no part;
    when it is not, the base is [http://<name>.railway.internal:<port>],
    with [docling-serve-cpu] and [3000] for a name or a port that is not
    set.  The rest of the URL does not depend on the environment: it is
    the same under any other environment that lets the request through. *)
Theorem environment_decides_target (env env' : gmap string string)
        (out out' : OutboundRequest) :
  sent (snd (app send (load_config env) framework_routes request w))
  = (sent w ++ [out])%list ->
  sent (snd (app send (load_config env') framework_routes request w))
  = (sent w ++ [out'])%list ->
  exists rest,
    out_url out
    = match env !! "DOCLING_API_URL" with
      | Some url => url
      | None =>
          "http://" +:+ default "docling-serve-cpu" (env !! "DOCLING_SERVICE_NAME")
            +:+ ".railway.internal:" +:+ default "3000" (env !! "DOCLING_SERVICE_PORT")
      end +:+ "/v1alpha/" +:+ rest
    /\ out_url out'
       = match env' !! "DOCLING_API_URL" with
         | Some url => url
         | None =>
             "http://" +:+ default "docling-serve-cpu" (env' !! "DOCLING_SERVICE_NAME")
               +:+ ".railway.internal:" +:+ default "3000" (env' !! "DOCLING_SERVICE_PORT")
         end +:+ "/v1alpha/" +:+ rest.
Proof.
  intros Hsent Hsent'.
  destruct (run_call send (load_config env) framework_routes request w out Hsent)
    as (_ & route & Hroute & Hout).
  destruct (run_call send (load_config env') framework_routes request w out' Hsent')
    as (_ & route' & Hroute' & Hout').
  rewrite Hroute in Hroute'. injection Hroute' as <-.
  destruct (forwarded_url_rest (load_config env) (load_config env') request route
              out out' Hout Hout') as (rest & -> & ->).
  exists rest. unfold load_config. cbn [DOCLING_API_URL].
  destruct (env !! "DOCLING_API_URL"), (env' !! "DOCLING_API_URL"); split; reflexivity.
Qed.

End Targets.

(** ** The further properties on the sample inputs *)

Lemma fail_closed_witness :
  response_status
    (fst (app Sample.send_ok Sample.cfg Sample.not_found Sample.wrong_token Sample.world))
  = 401
  /\ snd (app Sample.send_ok Sample.cfg Sample.not_found Sample.wrong_token Sample.world)
     = Sample.world.
Proof.
  destruct (fail_closed Sample.send_ok Sample.cfg Sample.not_found Sample.wrong_token
              Sample.world ltac:(off_allow_list)) as [H | (_ & Hunset & _)].
  - intros h scheme token Hh Hsplit _ Hcfg.
    vm_compute in Hh. injection Hh as <-.
    vm_compute in Hsplit. injection Hsplit as _ <-.
    discriminate Hcfg.
  - exact H.
  - discriminate Hunset.
Defined.

Lemma leading_blank_secret_locks_out_witness :
  response_status
    (fst (app Sample.send_ok Sample.cfg_leading_blank Sample.not_found
              Sample.convert_file Sample.world)) = 401
  /\ snd (app Sample.send_ok Sample.cfg_leading_blank Sample.not_found
              Sample.convert_file Sample.world) = Sample.world.
Proof.
  apply (leading_blank_secret_locks_out Sample.send_ok Sample.cfg_leading_blank
           Sample.not_found Sample.convert_file Sample.world " " "s3cret");
    [off_allow_list | reflexivity | reflexivity].
Defined.

Lemma spaced_bearer_passes_witness :
  app Sample.send_ok Sample.cfg Sample.not_found Sample.spaced_header Sample.world
  = router Sample.send_ok Sample.cfg Sample.not_found Sample.spaced_header Sample.world.
Proof.
  apply (spaced_bearer_passes Sample.send_ok Sample.cfg Sample.not_found
           Sample.spaced_header Sample.world "  " "bEaReR" (String (Py.chr 9) " ")
           " " "s" "3cret");
    [off_allow_list | reflexivity | reflexivity | reflexivity | reflexivity
    | reflexivity | reflexivity].
Defined.

Lemma same_method_and_path_witness :
  out_method Sample.convert_file_call = "POST"
  /\ exists path,
      (req_path Sample.convert_file_newline = path
       \/ req_path Sample.convert_file_newline = path +:+ NL)
      /\ out_url Sample.convert_file_call
         = DOCLING_API_URL Sample.cfg +:+ "/v1alpha" +:+ path.
Proof.
  destruct (same_method_and_path Sample.send_ok Sample.cfg Sample.not_found
              Sample.convert_file_newline Sample.world Sample.convert_file_call
              ltac:(vm_compute; reflexivity)) as (Hmethod & _ & path & Hpath & Hurl).
  split; [exact Hmethod |]. exists path. split.
  - destruct Hpath as [Hpath | (_ & Hpath)]; [left | right]; exact Hpath.
  - rewrite Hurl. cbn [match_route]. rewrite append_nil_r. reflexivity.
Defined.

Lemma calls_are_logged_witness :
  logs (snd (app Sample.send_down Sample.cfg Sample.not_found Sample.convert_source
                 Sample.world))
  = [failure_record (out_url Sample.convert_source_call)
       ("ConnectError: All connection attempts failed: "
          +:+ out_url Sample.convert_source_call)]
  /\ logs (snd (app Sample.send_euro Sample.cfg Sample.not_found Sample.convert_file
                    Sample.world))
     = [failure_record (out_url Sample.convert_file_call) "UnicodeEncodeError"]
  /\ logs (snd (app Sample.send_ok Sample.cfg Sample.not_found Sample.convert_file
                    Sample.world))
     = [].
Proof.
  destruct (calls_are_logged Sample.send_down Sample.cfg Sample.not_found
              Sample.convert_source Sample.world Sample.convert_source_call
              ltac:(vm_compute; reflexivity)) as (route & Hroute & Hlogs & _).
  destruct (calls_are_logged Sample.send_euro Sample.cfg Sample.not_found
              Sample.convert_file Sample.world Sample.convert_file_call
              ltac:(vm_compute; reflexivity)) as (route' & Hroute' & Hlogs' & _).
  destruct (calls_are_logged Sample.send_ok Sample.cfg Sample.not_found
              Sample.convert_file Sample.world Sample.convert_file_call
              ltac:(vm_compute; reflexivity)) as (route2 & Hroute2 & Hlogs2 & _).
  vm_compute in Hroute. injection Hroute as <-.
  vm_compute in Hroute'. injection Hroute' as <-.
  vm_compute in Hroute2. injection Hroute2 as <-.
  split; [exact Hlogs |]. split; [exact Hlogs' | exact Hlogs2].
Defined.

Lemma timeout_floor_witness :
  PrimFloat.ltb (out_timeout Sample.status_poll_call) 30 = false
  /\ PrimFloat.ltb (out_timeout Sample.status_poll_call) (2.5 + 5) = false.
Proof.
  exact (timeout_floor Sample.send_ok Sample.cfg Sample.not_found Sample.status_poll
           Sample.world Sample.status_poll_call ltac:(vm_compute; reflexivity)).
Defined.

Lemma task_id_is_one_segment_witness :
  match_route Sample.nested_result = None
  /\ sent (snd (app Sample.send_ok Sample.cfg Sample.not_found Sample.nested_result
                    Sample.world)) = [].
Proof.
  destruct (task_id_is_one_segment Sample.send_ok Sample.not_found Sample.nested_result
              Sample.world Sample.cfg "abc/123"
              ltac:(left; reflexivity) ltac:(right; reflexivity))
    as (Hroute & Hsent & _).
  split; [exact Hroute | exact Hsent].
Defined.

Lemma environment_decides_target_witness :
  exists rest,
    out_url Sample.convert_file_call_8080
    = "http://docling-serve-cpu.railway.internal:8080" +:+ "/v1alpha/" +:+ rest
    /\ out_url Sample.convert_file_call_backend
       = "http://backend:5001" +:+ "/v1alpha/" +:+ rest.
Proof.
  destruct (environment_decides_target Sample.send_ok Sample.not_found
              Sample.convert_file Sample.world Sample.env_port Sample.env_url
              Sample.convert_file_call_8080 Sample.convert_file_call_backend
              ltac:(vm_compute; reflexivity) ltac:(vm_compute; reflexivity))
    as (rest & Hurl & Hurl').
  exists rest. split; [rewrite Hurl | rewrite Hurl']; vm_compute; reflexivity.
Defined.

(** ** The surface of the proxy *)

Section Surface.

Context {B : Type}.
Variable send : OutboundRequest -> B -> Outcome * B.
Variable cfg : Config.
Variable framework_routes : Request -> HttpResponse.
Variable request : Request.
Variable w : World B.

(** X10. Which requests lead to a call: a POST whose path is
    [/convert/file], [/convert/source] or [/convert/source/async], alone
    or followed by one newline (the route patterns let a final newline
    through), or a GET whose path is [/status/poll/<id>] or
    [/result/<id>] with an id that is one non-empty segment.  A request
    with another method or path leads to no call. *)
Theorem five_endpoints_only (out : OutboundRequest) :
  sent (snd (app send cfg framework_routes request w)) = (sent w ++ [out])%list ->
  (req_method request = "POST"
   /\ exists path,
       path ∈ ["/convert/file"; "/convert/source"; "/convert/source/async"]
       /\ (req_path request = path \/ req_path request = path +:+ NL))
  \/ (req_method request = "GET"
      /\ exists task_id,
          task_id <> EmptyString
          /\ Py.has_char "/" task_id = false
          /\ (req_path request = "/status/poll/" +:+ task_id
              \/ req_path request = "/result/" +:+ task_id)).
Proof.
  intros Hsent.
  destruct (run_call send cfg framework_routes request w out Hsent)
    as (_ & route & Hroute & Hout).
  pose proof (match_route_shape request route Hroute) as Hshape.
  destruct route as [| | | | id | id]; cbn in Hout; try discriminate.
  - left. destruct Hshape as (-> & Hp). split; [reflexivity |].
    exists "/convert/file". split; [apply list_elem_of_In; cbn; auto | exact Hp].
  - left. destruct Hshape as (-> & Hp). split; [reflexivity |].
    exists "/convert/source". split; [apply list_elem_of_In; cbn; auto | exact Hp].
  - left. destruct Hshape as (-> & Hp). split; [reflexivity |].
    exists "/convert/source/async". split; [apply list_elem_of_In; cbn; auto | exact Hp].
  - right. destruct Hshape as (-> & -> & Hne & Hslash). split; [reflexivity |].
    exists id. auto.
  - right. destruct Hshape as (-> & -> & Hne & Hslash). split; [reflexivity |].
    exists id. auto.
Qed.

End Surface.

Lemma five_endpoints_only_witness :
  req_method Sample.task_result = "GET"
  /\ exists task_id,
      task_id <> EmptyString
      /\ Py.has_char "/" task_id = false
      /\ (req_path Sample.task_result = "/status/poll/" +:+ task_id
          \/ req_path Sample.task_result = "/result/" +:+ task_id).
Proof.
  destruct (five_endpoints_only Sample.send_ok Sample.cfg Sample.not_found
              Sample.task_result Sample.world Sample.task_result_call
              ltac:(vm_compute; reflexivity)) as [(Hpost & _) | Hget].
  - discriminate Hpost.
  - exact Hget.
Defined.
